(** * AudioConverterPro: the conversion pipeline of [app.py],
      [audio_converter_gui.py] and [cli_converter.py]

    A shallow embedding of the job runner, the transcoder front end and the
    source classifier, with the external collaborators (the yt_dlp
    extractor, the ffmpeg encoder, [os.remove]) taken as an environment
    record; followed by the properties of the specification that concern
    them. *)

From Stdlib Require Import ZArith Ascii String List Lia.
From Stdlib Require Import SpecFloat.
From stdpp Require Import base option list strings gmap pretty.

Local Open Scope Z_scope.

(* ===================================================================== *)
(** ** Python values and strings *)
(* ===================================================================== *)

(** The values a JSON body, an argparse namespace or a settings dict hands
    to the converters. *)
Inductive pyval : Type :=
  | PyNone
  | PyBool (b : bool)
  | PyInt (z : Z)
  | PyStr (s : string).

(** [bool(v)]: what [if v:] tests. *)
Definition truthy (v : pyval) : bool :=
  match v with
  | PyNone => false
  | PyBool b => b
  | PyInt z => negb (Z.eqb z 0)
  | PyStr s => negb (String.eqb s "")
  end.


(** [s.startswith(p)]. *)
Definition startswith (s p : string) : bool := String.prefix p s.

(** [s.endswith(p)]. *)
Definition endswith (s p : string) : bool :=
  let n := String.length s in
  let k := String.length p in
  (k <=? n)%nat && String.eqb (String.substring (n - k) k s) p.

(** [needle in hay]: some suffix of [hay] starts with [needle]. *)
Fixpoint str_in (needle hay : string) : bool :=
  String.prefix needle hay ||
  match hay with
  | EmptyString => false
  | String _ rest => str_in needle rest
  end.

(** [x] occurs in [y] as a substring. *)
Definition occurs_in (x y : string) : Prop := exists a b, y = a +:+ x +:+ b.

(** [s.rfind(c)] for a one-character [c]; [None] stands for [-1]. *)
Fixpoint rfind (c : ascii) (s : string) : option nat :=
  match s with
  | EmptyString => None
  | String a rest =>
      match rfind c rest with
      | Some i => Some (S i)
      | None => if Ascii.eqb a c then Some 0%nat else None
      end
  end.

(** [s.split(c)] for a one-character separator. *)
Fixpoint split_on (c : ascii) (s : string) : list string :=
  match s with
  | EmptyString => [EmptyString]
  | String a rest =>
      if Ascii.eqb a c then EmptyString :: split_on c rest
      else match split_on c rest with
           | [] => [String a EmptyString]
           | w :: ws => String a w :: ws
           end
  end.

(** [c.join(parts)]. *)
Fixpoint join_with (c : string) (parts : list string) : string :=
  match parts with
  | [] => ""
  | [p] => p
  | p :: ps => p +:+ c +:+ join_with c ps
  end.

(* ===================================================================== *)
(** ** [os.path] and [pathlib] (POSIX flavour) *)
(* ===================================================================== *)

Module OsPath.

(** [os.path.join(a, b)]. *)
Definition join (a b : string) : string :=
  if startswith b "/" then b
  else if String.eqb a "" || endswith a "/" then a +:+ b
  else a +:+ "/" +:+ b.

(** The components [PurePosixPath] keeps: empty and ["."] ones drop out. *)
Definition parts (p : string) : list string :=
  filter (fun x => x <> "" /\ x <> ".") (split_on "/" p).

(** [Path(p).name]. *)
Definition name (p : string) : string := List.last (parts p) "".

(** [Path(p).stem]: the name up to its last dot, unless that dot is the
    first or the last character. *)
Definition stem (p : string) : string :=
  let n := name p in
  match rfind "." n with
  | Some i =>
      if (0 <? i)%nat && (i <? String.length n - 1)%nat
      then String.substring 0 i n else n
  | None => n
  end.

(** [os.path.basename(p)]: what follows the last slash. *)
Definition basename (p : string) : string :=
  match rfind "/" p with
  | Some i => String.substring (S i) (String.length p - S i) p
  | None => p
  end.

End OsPath.

(* ===================================================================== *)
(** ** The format catalog ([config.py], and the fallback in [app.py]) *)
(* ===================================================================== *)

Record format_info : Type := FormatInfo {
  fmt_ext : string;
  fmt_codec : string
}.

Definition catalog_entries : list (string * format_info) :=
  [ ("mp3",  FormatInfo "mp3"  "libmp3lame");
    ("ogg",  FormatInfo "ogg"  "libvorbis");
    ("wav",  FormatInfo "wav"  "pcm_s16le");
    ("flac", FormatInfo "flac" "flac");
    ("aac",  FormatInfo "aac"  "aac");
    ("m4a",  FormatInfo "m4a"  "aac");
    ("opus", FormatInfo "opus" "libopus");
    ("wma",  FormatInfo "wma"  "wmav2") ].

(** [AUDIO_FORMATS = CONFIG['formats']]; the converters read only the
    ['ext'] and ['codec'] entries. *)
Definition AUDIO_FORMATS : gmap string format_info :=
  list_to_map catalog_entries.

(** [app.config['OUTPUT_FOLDER']]. *)
Definition OUTPUT_FOLDER : string := "outputs".

(* ===================================================================== *)
(** ** Exceptions, and a state-and-exception monad *)
(* ===================================================================== *)

(** An exception: its class name, [str(e)], and the [stderr] attribute an
    [ffmpeg.Error] carries ([None] on every other class). *)
Record exn : Type := MkExn {
  exn_class : string;
  exn_str : string;
  exn_stderr : option string
}.

Definition Exn (cls msg : string) : exn := MkExn cls msg None.

Inductive result (A : Type) : Type :=
  | Ok (a : A)
  | Raise (e : exn).
Arguments Ok {A} a.
Arguments Raise {A} e.

Definition M (S A : Type) : Type := S -> S * result A.

Definition ret {S A} (a : A) : M S A := fun s => (s, Ok a).

Definition bind {S A B} (m : M S A) (k : A -> M S B) : M S B :=
  fun s => match m s with
           | (s', Ok a) => k a s'
           | (s', Raise e) => (s', Raise e)
           end.

Definition raise {S A} (e : exn) : M S A := fun s => (s, Raise e).

(** [try: body except Exception as e: handler(e)]. *)
Definition try_except {S A} (body : M S A) (handler : exn -> M S A) : M S A :=
  fun s => match body s with
           | (s', Ok a) => (s', Ok a)
           | (s', Raise e) => handler e s'
           end.

(** [try: body finally: final]; an exception of [final] replaces the
    pending outcome. *)
Definition try_finally {S A} (body : M S A) (final : M S unit) : M S A :=
  fun s => match body s with
           | (s', r) => match final s' with
                        | (s'', Ok _) => (s'', r)
                        | (s'', Raise e) => (s'', Raise e)
                        end
           end.

Definition modify {S} (f : S -> S) : M S unit := fun s => (f s, Ok tt).
Definition gets {S A} (f : S -> A) : M S A := fun s => (s, Ok (f s)).

Declare Scope py_scope.
Delimit Scope py_scope with py.
Notation "x <- c1 ;; c2" := (bind c1 (fun x => c2))
  (at level 100, c1 at next level, right associativity) : py_scope.
Notation "c1 ;;; c2" := (bind c1 (fun _ => c2))
  (at level 100, right associativity) : py_scope.

Local Open Scope py_scope.

(** [try: body except cls as e: handler(e)]: other classes pass through. *)
Definition try_except_class {S A} (cls : string) (body : M S A)
    (handler : exn -> M S A) : M S A :=
  fun s => match body s with
           | (s', Ok a) => (s', Ok a)
           | (s', Raise e) =>
               if String.eqb (exn_class e) cls then handler e s'
               else (s', Raise e)
           end.

(* ===================================================================== *)
(** ** The file system and the external collaborators *)
(* ===================================================================== *)

(** The file system: the existing paths, in directory-listing order. *)
Definition filesystem : Type := list string.

Fixpoint strip_prefix (p s : string) : option string :=
  match p, s with
  | EmptyString, _ => Some s
  | String a p', String b s' =>
      if Ascii.eqb a b then strip_prefix p' s' else None
  | String _ _, EmptyString => None
  end.

(** [os.path.exists(p)]. *)
Definition os_path_exists (p : string) (fs : filesystem) : bool :=
  bool_decide (p ∈ fs).

(** [os.listdir(d)]: the entries directly under [d]. *)
Definition os_listdir (d : string) (fs : filesystem) : list string :=
  omap (fun p => match strip_prefix (OsPath.join d "") p with
                 | Some n => if str_in "/" n || String.eqb n "" then None
                             else Some n
                 | None => None
                 end) fs.

(** What the extractor hands back: [None], or a dict that may carry a
    ['title']. *)
Inductive info : Type :=
  | InfoNone
  | InfoDict (title : option string).

(** One call of a progress hook: the dict yt_dlp passes.  ['status'] is
    always there; the byte counts may be missing, or present and [None]. *)
Record progress_dict : Type := ProgressDict {
  pd_status : string;
  pd_downloaded_bytes : option pyval;
  pd_total_bytes : option pyval
}.

(** One run of [ydl.extract_info(url, download=True)]: the progress dicts
    it reports, the file system it leaves, and what it returns or raises. *)
Record extract_outcome : Type := ExtractOutcome {
  ex_hooks : list progress_dict;
  ex_fs : filesystem;
  ex_result : result info
}.

(** One run of [ffmpeg.run]: success, [ffmpeg.Error] with the captured
    stderr, or another exception (a missing binary, say). *)
Inductive ffmpeg_outcome : Type :=
  | RunOk
  | RunFFmpegError (stderr : option string)
  | RunOtherError (e : exn).

Record env : Type := Env {
  ydl_extract_info : string -> string -> filesystem -> extract_outcome;
  ffmpeg_run :
    string -> string -> gmap string pyval -> filesystem ->
    filesystem * ffmpeg_outcome;
  (** the [OSError] of [os.remove(p)] on an existing path, if any *)
  os_remove_error : string -> filesystem -> option exn
}.

Inductive event : Type :=
  | EvDownload (url outtmpl : string)
  | EvEncode (input output : string) (params : gmap string pyval)
  | EvRemove (path : string)
  | EvProgress (percent : Z) (msg : string)
  | EvFinished (success : bool) (msg : string).

(** [str(e)] of an [ffmpeg.Error]. *)
Definition ffmpeg_error_str : string :=
  "ffmpeg error (see stderr output for detail)".

Definition FFMPEG_ERROR : string := "ffmpeg.Error".

(** The [ffmpeg.Error] that [ffmpeg.run] raises, with the captured stderr. *)
Definition ffmpeg_exn (stderr : option string) : exn :=
  MkExn FFMPEG_ERROR ffmpeg_error_str stderr.

(** [e.stderr.decode() if e.stderr else str(e)]: empty bytes are falsy. *)
Definition stderr_or_str (e : exn) : string :=
  match exn_stderr e with
  | Some s => if String.eqb s "" then exn_str e else s
  | None => exn_str e
  end.

(** [info.get('title', 'Unknown')]. *)
Definition info_get_title {S} (i : info) : M S string :=
  match i with
  | InfoNone =>
      raise (Exn "AttributeError" "'NoneType' object has no attribute 'get'")
  | InfoDict (Some t) => ret t
  | InfoDict None => ret "Unknown"
  end.

(** [a, b = r]. *)
Definition unpack_pair {S A B} (r : option (A * B)) : M S (A * B) :=
  match r with
  | Some p => ret p
  | None => raise (Exn "TypeError" "cannot unpack non-iterable NoneType object")
  end.

(** What a run acts on: the memory it owns (the job's dict in [app.py],
    the local [temp_file] in the GUI thread), the file system, the calls
    made to the collaborators and the signals emitted, and the successive
    contents of the memory (one snapshot per store, as a status poll may
    see them). *)
Record world (J : Type) : Type := World {
  w_mem : J;
  w_fs : filesystem;
  w_events : list event;
  w_hist : list J
}.
Arguments World {J} _ _ _ _.
Arguments w_mem {J} _.
Arguments w_fs {J} _.
Arguments w_events {J} _.
Arguments w_hist {J} _.

Section Actions.
Context {J : Type}.
Variable E : env.

(** A store into the run's memory. *)
Definition store (f : J -> J) : M (world J) unit :=
  modify (fun w =>
    let j := f (w_mem w) in
    World j (w_fs w) (w_events w) (w_hist w ++ [j])).

Definition emit (e : event) : M (world J) unit :=
  modify (fun w => World (w_mem w) (w_fs w) (w_events w ++ [e]) (w_hist w)).

Definition set_fs (fs : filesystem) : M (world J) unit :=
  modify (fun w => World (w_mem w) fs (w_events w) (w_hist w)).

(** [for d in ...: hook(d)], stopping at the first exception. *)
Fixpoint run_hooks (hook : progress_dict -> M (world J) unit)
    (ds : list progress_dict) : M (world J) unit :=
  match ds with
  | [] => ret tt
  | d :: ds' => hook d ;;; run_hooks hook ds'
  end.

(** [ydl.extract_info(url, download=True)] under [outtmpl], with the
    progress hooks of [ydl_opts]: the extractor calls [hook] on each
    progress dict; an exception of the hook aborts the extraction. *)
Definition extract_info (hook : progress_dict -> M (world J) unit)
    (url outtmpl : string) : M (world J) info :=
  emit (EvDownload url outtmpl) ;;;
  fs <- gets w_fs ;;
  let o := ydl_extract_info E url outtmpl fs in
  run_hooks hook (ex_hooks o) ;;;
  set_fs (ex_fs o) ;;;
  match ex_result o with
  | Ok i => ret i
  | Raise e => raise e
  end.

(** No [progress_hooks] in [ydl_opts]. *)
Definition no_hook (d : progress_dict) : M (world J) unit := ret tt.

(** [ffmpeg.run(ffmpeg.output(ffmpeg.input(i), o, **params),
    overwrite_output=True, capture_stdout=True, capture_stderr=True)]. *)
Definition run_ffmpeg (i o : string) (params : gmap string pyval)
    : M (world J) unit :=
  emit (EvEncode i o params) ;;;
  fs <- gets w_fs ;;
  let '(fs', r) := ffmpeg_run E i o params fs in
  set_fs fs' ;;;
  match r with
  | RunOk => ret tt
  | RunFFmpegError stderr => raise (ffmpeg_exn stderr)
  | RunOtherError e => raise e
  end.

(** [os.remove(p)]. *)
Definition os_remove (p : string) : M (world J) unit :=
  emit (EvRemove p) ;;;
  fs <- gets w_fs ;;
  if os_path_exists p fs then
    match os_remove_error E p fs with
    | Some e => raise e
    | None => set_fs (filter (fun q => q <> p) fs)
    end
  else raise (Exn "FileNotFoundError"
                  ("[Errno 2] No such file or directory: '" +:+ p +:+ "'")).

End Actions.

(** The dict [audio_params] that [convert_audio] builds, the same lines in
    [app.py] and in [cli_converter.py]. *)
Definition audio_params (format_info : format_info)
    (sample_rate bitrate : pyval) : gmap string pyval :=
  let p0 : gmap string pyval := {[ "acodec" := PyStr (fmt_codec format_info) ]} in
  let p1 := if truthy sample_rate then <[ "ar" := sample_rate ]> p0 else p0 in
  if truthy bitrate then <[ "audio_bitrate" := bitrate ]> p1 else p1.

(** [re.search(r'(a1|a2|...)', s)] for literal alternatives: the leftmost
    position where one of them starts, the first such alternative. *)
Fixpoint re_search_literals (alts : list string) (s : string) : option string :=
  match List.find (fun a => String.prefix a s) alts with
  | Some a => Some a
  | None =>
      match s with
      | EmptyString => None
      | String _ rest => re_search_literals alts rest
      end
  end.

(* ===================================================================== *)
(** ** The web runner ([app.py]) *)
(* ===================================================================== *)

Module App.

(** [is_youtube_url(url)]: [youtube_regex = r'(youtube\.com|youtu\.be)']. *)
Definition is_youtube_url (url : string) : bool :=
  bool_decide (re_search_literals ["youtube.com"; "youtu.be"] url <> None).

Inductive status : Type := Queued | Processing | Completed | Failed.

Global Instance status_eq_dec : EqDecision status.
Proof. solve_decision. Defined.

(** One entry of [conversion_jobs]: the keys [convert] creates, and the
    two the runner adds. *)
Record job : Type := Job {
  job_id : string;
  job_status : status;
  job_progress : Z;
  job_filename : string;
  job_message : string;
  job_output_path : option string;
  job_error : option string
}.

(** The record [convert] stores before it starts the thread. *)
Definition new_job (id name : string) : job :=
  Job id Queued 0 name "Queued for processing..." None None.

Definition with_status (v : status) (j : job) : job :=
  Job (job_id j) v (job_progress j) (job_filename j) (job_message j)
      (job_output_path j) (job_error j).
Definition with_progress (v : Z) (j : job) : job :=
  Job (job_id j) (job_status j) v (job_filename j) (job_message j)
      (job_output_path j) (job_error j).
Definition with_filename (v : string) (j : job) : job :=
  Job (job_id j) (job_status j) (job_progress j) v (job_message j)
      (job_output_path j) (job_error j).
Definition with_message (v : string) (j : job) : job :=
  Job (job_id j) (job_status j) (job_progress j) (job_filename j) v
      (job_output_path j) (job_error j).
Definition with_output_path (v : string) (j : job) : job :=
  Job (job_id j) (job_status j) (job_progress j) (job_filename j)
      (job_message j) (Some v) (job_error j).
Definition with_error (v : string) (j : job) : job :=
  Job (job_id j) (job_status j) (job_progress j) (job_filename j)
      (job_message j) (job_output_path j) (Some v).

Section WithEnv.
Variable E : env.

(** [download_youtube_audio(url, job_id)]: the path and the title, or
    [None] when the loop over [os.listdir('temp')] finds nothing. *)
Definition download_youtube_audio (url job_id : string)
    : M (world job) (option (string * string)) :=
  let output_path := OsPath.join "temp" (job_id +:+ "_youtube.%(ext)s") in
  try_except
    (i <- extract_info E no_hook url output_path ;;
     title <- info_get_title i ;;
     files <- gets (fun w => os_listdir "temp" (w_fs w)) ;;
     ret (match List.find (fun file => startswith file (job_id +:+ "_youtube"))
                          files with
          | Some file => Some (OsPath.join "temp" file, title)
          | None => None
          end))
    (fun e => raise (Exn "Exception"
                         ("YouTube download failed: " +:+ exn_str e))).

(** [f"{job_id}"] for the optional argument. *)
Definition fmt_job_id (job_id : option string) : string :=
  match job_id with Some j => j | None => "None" end.

(** The output path of [convert_audio]. *)
Definition output_path_of (input_path : string) (format_info : format_info)
    (job_id : option string) : string :=
  let output_filename :=
    OsPath.stem input_path +:+ "." +:+ fmt_ext format_info in
  OsPath.join OUTPUT_FOLDER (fmt_job_id job_id +:+ "_" +:+ output_filename).

(** [convert_audio(input_path, output_format, sample_rate, bitrate,
    job_id)]. *)
Definition convert_audio (input_path output_format : string)
    (sample_rate bitrate : pyval) (job_id : option string)
    : M (world job) string :=
  match AUDIO_FORMATS !! output_format with
  | None => raise (Exn "ValueError" ("Unsupported format: " +:+ output_format))
  | Some format_info =>
      let output_path := output_path_of input_path format_info job_id in
      try_except_class FFMPEG_ERROR
        (run_ffmpeg E input_path output_path
           (audio_params format_info sample_rate bitrate) ;;;
         ret output_path)
        (fun e => raise (Exn "Exception"
                             ("Conversion failed: " +:+ stderr_or_str e)))
  end.

(** [process_conversion_job(job_id, source_type, source_data,
    output_format, sample_rate, bitrate)]; the memory of the run is the
    dict [conversion_jobs[job_id]]. *)
Definition process_conversion_job (job_id source_type source_data : string)
    (output_format : string) (sample_rate bitrate : pyval)
    : M (world job) unit :=
  try_except
    (store (with_status Processing) ;;;
     store (with_progress 20) ;;;
     input_path <-
       (if String.eqb source_type "youtube" then
          store (with_message "Downloading from YouTube...") ;;;
          r <- download_youtube_audio source_data job_id ;;
          p <- unpack_pair r ;;
          store (with_filename (snd p)) ;;;
          store (with_progress 60) ;;;
          ret (fst p)
        else
          store (with_progress 60) ;;;
          ret source_data) ;;
     store (with_message "Converting audio...") ;;;
     output_path <-
       convert_audio input_path output_format sample_rate bitrate
         (Some job_id) ;;
     store (with_status Completed) ;;;
     store (with_progress 100) ;;;
     store (with_output_path output_path) ;;;
     store (with_message "Conversion completed!") ;;;
     exists_ <- gets (fun w => os_path_exists input_path (w_fs w)) ;;
     if String.eqb source_type "youtube" && exists_
     then os_remove E input_path
     else ret tt)
    (fun e =>
       store (with_status Failed) ;;;
       store (with_error (exn_str e)) ;;;
       store (with_message ("Error: " +:+ exn_str e))).

(** A whole run: the thread [convert] starts on a freshly queued job. *)
Definition run_job (id name : string) (fs : filesystem)
    (source_type source_data output_format : string)
    (sample_rate bitrate : pyval) : world job :=
  let j := new_job id name in
  fst (process_conversion_job id source_type source_data output_format
         sample_rate bitrate (World j fs [] [j])).

End WithEnv.

(** *** The routes that read the registry *)



(** ['_'.join(filename.split('_')[1:])]. *)
Definition clean_filename (filename : string) : string :=
  join_with "_" (List.tl (split_on "_" filename)).



(** [uuid.uuid4()] as a string: 36 characters, lower-case hexadecimal
    digits with hyphens at offsets 8, 13, 18 and 23. *)
Definition is_hex (c : ascii) : bool :=
  let n := nat_of_ascii c in
  ((48 <=? n) && (n <=? 57) || (97 <=? n) && (n <=? 102))%nat.

Fixpoint uuid_chars (i : nat) (s : string) : bool :=
  match s with
  | EmptyString => true
  | String c rest =>
      (if bool_decide (i ∈ [8; 13; 18; 23]%nat)
       then Ascii.eqb c "-" else is_hex c)
      && uuid_chars (S i) rest
  end.

Definition uuid_shaped (s : string) : bool :=
  (String.length s =? 36)%nat && uuid_chars 0 s.

End App.

(* ===================================================================== *)
(** ** Python floats (IEEE 754 binary64) *)
(* ===================================================================== *)

Module PyFloat.

Definition prec : Z := 53.
Definition emax : Z := 1024.

(** An integer as the exact rational it is, before any rounding. *)
Definition exact (z : Z) : spec_float :=
  match z with
  | Z0 => S754_zero false
  | Zpos p => S754_finite false p 0
  | Zneg p => S754_finite true p 0
  end.

(** [float(z)]: round to nearest, ties to even. *)
Definition of_int (z : Z) : spec_float := binary_normalize prec emax z 0 false.

(** The integer an operand of [/] stands for ([bool] is an [int]). *)
Definition as_int (v : pyval) : option Z :=
  match v with
  | PyInt z => Some z
  | PyBool b => Some (if b then 1 else 0)
  | _ => None
  end.

Definition type_name (v : pyval) : string :=
  match v with
  | PyNone => "NoneType"
  | PyBool _ => "bool"
  | PyInt _ => "int"
  | PyStr _ => "str"
  end.

(** [a / b] on two ints: the correctly rounded quotient. *)
Definition truediv (a b : pyval) : result spec_float :=
  match as_int a, as_int b with
  | Some x, Some y =>
      if Z.eqb y 0 then Raise (Exn "ZeroDivisionError" "division by zero")
      else match SFdiv prec emax (exact x) (exact y) with
           | S754_infinity _ =>
               Raise (Exn "OverflowError"
                          "integer division result too large for a float")
           | q => Ok q
           end
  | _, _ =>
      Raise (Exn "TypeError"
                 ("unsupported operand type(s) for /: '" +:+ type_name a
                  +:+ "' and '" +:+ type_name b +:+ "'"))
  end.

(** [f * n] and [n + f] for an int [n]. *)
Definition mul_int (f : spec_float) (n : Z) : spec_float :=
  SFmul prec emax f (of_int n).
Definition int_add (n : Z) (f : spec_float) : spec_float :=
  SFadd prec emax (of_int n) f.

(** [int(f)]: truncation toward zero. *)
Definition to_int (f : spec_float) : result Z :=
  match f with
  | S754_zero _ => Ok 0
  | S754_finite s m e =>
      let a := if Z.leb 0 e then Z.shiftl (Zpos m) e
               else Z.shiftr (Zpos m) (- e) in
      Ok (if s then - a else a)
  | S754_infinity _ =>
      Raise (Exn "OverflowError" "cannot convert float infinity to integer")
  | S754_nan => Raise (Exn "ValueError" "cannot convert float NaN to integer")
  end.

End PyFloat.

Definition lift_result {S A} (r : result A) : M S A := fun s => (s, r).

(** [d.get(k, default)]. *)
Definition get_default (o : option pyval) (default : pyval) : pyval :=
  match o with Some v => v | None => default end.

(* ===================================================================== *)
(** ** The desktop converter ([audio_converter_gui.py]) *)
(* ===================================================================== *)

Module Gui.

(** [ConversionThread._is_youtube_url(url)]. *)
Definition _is_youtube_url (url : pyval) : bool :=
  match url with
  | PyStr s => str_in "youtube.com" s || str_in "youtu.be" s
  | _ => false
  end.

(** [codec_map] of [_get_audio_params]. *)
Definition codec_map : gmap string string :=
  list_to_map
    [ ("mp3", "libmp3lame"); ("ogg", "libvorbis"); ("wav", "pcm_s16le");
      ("flac", "flac"); ("aac", "aac"); ("m4a", "aac");
      ("opus", "libopus"); ("wma", "wmav2") ].

(** [settings.get(k)]. *)
Definition settings_get (settings : gmap string pyval) (k : string) : pyval :=
  get_default (settings !! k) PyNone.

(** [ConversionThread._get_audio_params()]. *)
Definition _get_audio_params (output_format : string)
    (settings : gmap string pyval) : gmap string pyval :=
  let p0 : gmap string pyval :=
    {[ "acodec" := PyStr (default "copy" (codec_map !! output_format)) ]} in
  let p1 := if truthy (settings_get settings "sample_rate")
            then <[ "ar" := settings_get settings "sample_rate" ]> p0 else p0 in
  let p2 := if truthy (settings_get settings "bitrate")
            then <[ "audio_bitrate" := settings_get settings "bitrate" ]> p1
            else p1 in
  if truthy (settings_get settings "channels")
  then <[ "ac" := settings_get settings "channels" ]> p2 else p2.

(** [c.isalnum()] on ASCII; a title is taken as ASCII text. *)
Definition isalnum (c : ascii) : bool :=
  let n := nat_of_ascii c in
  ((48 <=? n) && (n <=? 57) || (65 <=? n) && (n <=? 90)
   || (97 <=? n) && (n <=? 122))%nat.

Definition keep_char (c : ascii) : bool :=
  isalnum c || Ascii.eqb c " " || Ascii.eqb c "-" || Ascii.eqb c "_".

Fixpoint filter_chars (f : ascii -> bool) (s : string) : string :=
  match s with
  | EmptyString => EmptyString
  | String c rest =>
      if f c then String c (filter_chars f rest) else filter_chars f rest
  end.

(** [s.rstrip()] where the only white space left is the blank. *)
Fixpoint rstrip (s : string) : string :=
  match s with
  | EmptyString => EmptyString
  | String c rest =>
      match rstrip rest with
      | EmptyString => if Ascii.eqb c " " then EmptyString
                       else String c EmptyString
      | r => String c r
      end
  end.

(** [base_name] of [_convert_audio]. *)
Definition base_name_of (input_path : string) (title : option string) : string :=
  match title with
  | Some t => if String.eqb t "" then OsPath.stem input_path
              else rstrip (filter_chars keep_char t)
  | None => OsPath.stem input_path
  end.

(** The file name tried at a given turn: [name.ext] first, then
    [name_<counter>.ext]. *)
Definition first_path (output_dir base_name output_format : string) : string :=
  OsPath.join output_dir (base_name +:+ "." +:+ output_format).
Definition numbered_path (output_dir base_name output_format : string)
    (counter : nat) : string :=
  OsPath.join output_dir
    (base_name +:+ "_" +:+ pretty counter +:+ "." +:+ output_format).

(** [while os.path.exists(output_path): ...; counter += 1], from the
    state [(output_path, counter)]; [None] when the fuel runs out. *)
Fixpoint suffix_loop (fuel : nat) (fs : filesystem)
    (output_dir base_name output_format : string)
    (output_path : string) (counter : nat) : option string :=
  match fuel with
  | O => None
  | S fuel' =>
      if os_path_exists output_path fs
      then suffix_loop fuel' fs output_dir base_name output_format
             (numbered_path output_dir base_name output_format counter)
             (S counter)
      else Some output_path
  end.

(** The output path [_convert_audio] settles on.  The loop leaves after
    at most one turn per existing file, so this much fuel is never
    used up (see [unique_output_path_total]). *)
Definition unique_output_path (fs : filesystem)
    (output_dir base_name output_format : string) : option string :=
  suffix_loop (S (length fs)) fs output_dir base_name output_format
    (first_path output_dir base_name output_format) 1.

Section WithEnv.
Variable E : env.

(** The state of a thread: its local [temp_file]. *)
Definition gworld : Type := world (option string).

(** [self.progress.emit(p, msg)]. *)
Definition progress (p : Z) (msg : string) : M gworld unit :=
  emit (EvProgress p msg).

(** [ConversionThread._youtube_progress_hook(d)]. *)
Definition _youtube_progress_hook (d : progress_dict) : M gworld unit :=
  if String.eqb (pd_status d) "downloading" then
    q <- lift_result
           (PyFloat.truediv (get_default (pd_downloaded_bytes d) (PyInt 0))
                            (get_default (pd_total_bytes d) (PyInt 1))) ;;
    let percent := PyFloat.mul_int q 50 in
    p <- lift_result (PyFloat.to_int (PyFloat.int_add 20 percent)) ;;
    shown <- lift_result (PyFloat.to_int (PyFloat.mul_int percent 2)) ;;
    progress p ("Downloading... " +:+ pretty shown +:+ "%")
  else ret tt.

(** [ConversionThread._download_youtube(url)]. *)
Definition _download_youtube (output_dir url : string)
    : M gworld (option (string * string)) :=
  progress 10 "Connecting to YouTube..." ;;;
  let output_path :=
    OsPath.join output_dir "youtube_temp_%(title)s.%(ext)s" in
  try_except
    (progress 20 "Downloading audio..." ;;;
     i <- extract_info E _youtube_progress_hook url output_path ;;
     title <- info_get_title i ;;
     files <- gets (fun w => os_listdir output_dir (w_fs w)) ;;
     ret (match List.find (fun file => startswith file "youtube_temp_"
                                       && endswith file ".mp3") files with
          | Some file => Some (OsPath.join output_dir file, title)
          | None => None
          end))
    (fun e => raise (Exn "Exception"
                         ("YouTube download failed: " +:+ exn_str e))).

(** [ConversionThread._convert_audio(input_path, title)]. *)
Definition _convert_audio (output_format output_dir : string)
    (settings : gmap string pyval) (input_path : string)
    (title : option string) : M gworld string :=
  progress 70 "Converting audio..." ;;;
  let base_name := base_name_of input_path title in
  fs <- gets w_fs ;;
  match unique_output_path fs output_dir base_name output_format with
  | None => raise (Exn "RuntimeError" "suffix loop out of fuel")
  | Some output_path =>
      try_except_class FFMPEG_ERROR
        (run_ffmpeg E input_path output_path
           (_get_audio_params output_format settings) ;;;
         progress 90 "Finalizing..." ;;;
         ret output_path)
        (fun e => raise (Exn "Exception"
                             ("Conversion failed: " +:+ stderr_or_str e)))
  end.

(** [ConversionThread.run()]. *)
Definition run (source output_format output_dir : string)
    (settings : gmap string pyval) : M gworld unit :=
  store (fun _ => None) ;;;
  try_finally
    (try_except
       (output_path <-
          (if _is_youtube_url (PyStr source) then
             r <- _download_youtube output_dir source ;;
             p <- unpack_pair r ;;
             store (fun _ => Some (fst p)) ;;;
             _convert_audio output_format output_dir settings
               (fst p) (Some (snd p))
           else
             _convert_audio output_format output_dir settings source None) ;;
        progress 100 "Completed!" ;;;
        emit (EvFinished true output_path))
       (fun e => emit (EvFinished false (exn_str e))))
    (temp_file <- gets w_mem ;;
     fs <- gets w_fs ;;
     match temp_file with
     | Some t =>
         if negb (String.eqb t "") && os_path_exists t fs
         then try_except (os_remove E t) (fun _ => ret tt)
         else ret tt
     | None => ret tt
     end).

(** A whole run of a thread. *)
Definition run_thread (fs : filesystem)
    (source output_format output_dir : string)
    (settings : gmap string pyval) : gworld :=
  fst (run source output_format output_dir settings (World None fs [] [])).

End WithEnv.

End Gui.

(* ===================================================================== *)
(** ** The batch converter ([cli_converter.py]) *)
(* ===================================================================== *)

Module Cli.

(** [AudioConverter.is_youtube_url(url)]. *)
Definition is_youtube_url (url : string) : bool :=
  str_in "youtube.com" url || str_in "youtu.be" url.

(** [self.formats]: the same table as the catalog. *)
Definition formats : gmap string format_info := list_to_map catalog_entries.

(** The output path of [AudioConverter.convert_audio]. *)
Definition output_path_of (input_path : string) (format_info : format_info)
    (output_dir : string) : string :=
  OsPath.join output_dir
    (OsPath.stem input_path +:+ "." +:+ fmt_ext format_info).

Section WithEnv.
Variable E : env.

Definition cworld : Type := world unit.

(** [AudioConverter.download_youtube(url, output_dir)]: the path, or
    [None] on any exception and when no file matches. *)
Definition download_youtube (url output_dir : string)
    : M cworld (option string) :=
  let output_path := OsPath.join output_dir "%(title)s.%(ext)s" in
  try_except
    (i <- extract_info E no_hook url output_path ;;
     title <- info_get_title i ;;
     files <- gets (fun w => os_listdir output_dir (w_fs w)) ;;
     ret (match List.find (fun file => str_in title file
                                       && endswith file ".mp3") files with
          | Some file => Some (OsPath.join output_dir file)
          | None => None
          end))
    (fun _ => ret None).

(** [AudioConverter.convert_audio(input_path, output_format,
    sample_rate, bitrate, output_dir)]: the path, or [None] when the
    encoder fails. *)
Definition convert_audio (input_path output_format : string)
    (sample_rate bitrate : pyval) (output_dir : string)
    : M cworld (option string) :=
  match formats !! output_format with
  | None => raise (Exn "ValueError" ("Unsupported format: " +:+ output_format))
  | Some format_info =>
      let output_path := output_path_of input_path format_info output_dir in
      try_except_class FFMPEG_ERROR
        (run_ffmpeg E input_path output_path
           (audio_params format_info sample_rate bitrate) ;;;
         ret (Some output_path))
        (fun _ => ret None)
  end.

(** [AudioConverter.process_file(input_item, output_format,
    sample_rate, bitrate, output_dir)]. *)
Definition process_file (input_item output_format : string)
    (sample_rate bitrate : pyval) (output_dir : string)
    : M cworld (option string) :=
  if is_youtube_url input_item then
    downloaded_file <- download_youtube input_item "downloads" ;;
    match downloaded_file with
    | Some f =>
        if String.eqb f "" then ret None
        else
          r <- convert_audio f output_format sample_rate bitrate output_dir ;;
          os_remove E f ;;;
          ret r
    | None => ret None
    end
  else convert_audio input_item output_format sample_rate bitrate output_dir.

End WithEnv.

End Cli.

(* ===================================================================== *)
(** ** The specification's reading of a descriptor's host *)
(* ===================================================================== *)

Module SpecModel.

(** The specification speaks of the hostname of a descriptor.  This is
    the specification's notion, not a function of the source: the text
    between the [//] that follows the scheme and the next [/], [?] or
    [#], without user information and port. *)
Definition is_scheme_char (c : ascii) : bool :=
  Gui.isalnum c || Ascii.eqb c "+" || Ascii.eqb c "-" || Ascii.eqb c ".".

Fixpoint all_chars (f : ascii -> bool) (s : string) : bool :=
  match s with
  | EmptyString => true
  | String c rest => f c && all_chars f rest
  end.

Fixpoint take_until (stop : ascii -> bool) (s : string) : string :=
  match s with
  | EmptyString => EmptyString
  | String c rest => if stop c then EmptyString
                     else String c (take_until stop rest)
  end.

Fixpoint drop_until (stop : ascii -> bool) (s : string) : option string :=
  match s with
  | EmptyString => None
  | String c rest => if stop c then Some rest else drop_until stop rest
  end.

Definition after_scheme (d : string) : string :=
  let scheme := take_until (Ascii.eqb ":") d in
  match drop_until (Ascii.eqb ":") d with
  | Some rest =>
      if negb (String.eqb scheme "") && all_chars is_scheme_char scheme
      then rest else d
  | None => d
  end.

Definition netloc (d : string) : string :=
  match strip_prefix "//" (after_scheme d) with
  | Some r =>
      take_until (fun c => Ascii.eqb c "/" || Ascii.eqb c "?"
                           || Ascii.eqb c "#") r
  | None => ""
  end.

Definition hostname (d : string) : string :=
  let n := netloc d in
  let hostport :=
    match rfind "@" n with
    | Some i => String.substring (S i) (String.length n - S i) n
    | None => n
    end in
  take_until (Ascii.eqb ":") hostport.

(** "The hostname contains a recognized video-hosting domain". *)
Definition hostname_is_video_host (d : string) : bool :=
  str_in "youtube.com" (hostname d) || str_in "youtu.be" (hostname d).

End SpecModel.

(* ===================================================================== *)
(** ** Sample collaborators, for the concrete runs below *)
(* ===================================================================== *)

Module Sample.

(** An extractor that writes [temp/<job>_youtube.mp3] style files: it
    adds [file] to the file system and reports [title]. *)
Definition extractor_writing (file title : string)
    (url outtmpl : string) (fs : filesystem) : extract_outcome :=
  ExtractOutcome [] (fs ++ [file])%list (Ok (InfoDict (Some title))).

(** An extractor that completes and reports a title, but leaves no file. *)
Definition extractor_writing_nothing (title : string)
    (url outtmpl : string) (fs : filesystem) : extract_outcome :=
  ExtractOutcome [] fs (Ok (InfoDict (Some title))).

(** An extractor that reports the given progress dicts on its way. *)
Definition extractor_reporting (ds : list progress_dict) (file title : string)
    (url outtmpl : string) (fs : filesystem) : extract_outcome :=
  ExtractOutcome ds (fs ++ [file])%list (Ok (InfoDict (Some title))).

Definition encoder_ok (i o : string) (params : gmap string pyval)
    (fs : filesystem) : filesystem * ffmpeg_outcome :=
  (if os_path_exists o fs then fs else (fs ++ [o])%list, RunOk).

Definition encoder_failing (stderr : string) (i o : string)
    (params : gmap string pyval) (fs : filesystem)
    : filesystem * ffmpeg_outcome :=
  (fs, RunFFmpegError (Some stderr)).

Definition remove_ok (p : string) (fs : filesystem) : option exn := None.

Definition remove_denied (p : string) (fs : filesystem) : option exn :=
  Some (Exn "PermissionError" ("[Errno 13] Permission denied: '" +:+ p +:+ "'")).

(** Whole environments for the runs below. *)
Definition scratch : string := "temp/j1_youtube.mp3".

(** The download works, the encoder fails. *)
Definition env_encoder_fails : env :=
  Env (extractor_writing scratch "Song") (encoder_failing "boom") remove_ok.

(** The download and the encoder work, the scratch file cannot be
    removed. *)
Definition env_remove_denied : env :=
  Env (extractor_writing scratch "Song") encoder_ok remove_denied.

(** Everything works. *)
Definition env_all_ok : env :=
  Env (extractor_writing scratch "Song") encoder_ok remove_ok.


Definition video : string := "https://youtu.be/x".

(** A YouTube job of the web runner, on an empty file system. *)
Definition web_run (E : env) (output_format : string) : world App.job :=
  App.run_job E "j1" "clip" [] "youtube" video output_format PyNone PyNone.

(** The desktop thread's scratch file for that video. *)
Definition gui_scratch : string := "out/youtube_temp_Song.mp3".

Definition gui_env_encoder_fails : env :=
  Env (extractor_writing gui_scratch "Song") (encoder_failing "boom")
      remove_ok.

Definition gui_env_remove_denied : env :=
  Env (extractor_writing gui_scratch "Song") encoder_ok remove_denied.

(** A progress report without ['total_bytes'], as yt_dlp sends when the
    size of the download is not known. *)
Definition report_without_total : progress_dict :=
  ProgressDict "downloading" (Some (PyInt 1024)) None.

Definition gui_env_reporting : env :=
  Env (extractor_reporting [report_without_total] gui_scratch "Song")
      encoder_ok remove_ok.

Definition gui_run (E : env) : world (option string) :=
  Gui.run_thread E [] video "ogg" "out" ∅.

End Sample.

(* ===================================================================== *)
(** ** The configuration accessors ([config.py], and the fallback of
       [app.py]) *)
(* ===================================================================== *)

Module Config.

(** A configuration value: a scalar, a list of scalars, or a dict, whose
    entries are kept in insertion order. *)
#[warnings="-register-all"] Inductive cfg : Type :=
  | CVal (v : pyval)
  | CSeq (l : list pyval)
  | CDict (d : list (string * cfg)).

(** [d.get(k)] on the entries of a dict. *)
Fixpoint dict_get {A} (k : string) (d : list (string * A)) : option A :=
  match d with
  | [] => None
  | (k', v) :: d' => if String.eqb k k' then Some v else dict_get k d'
  end.

(** [d[k] = v]: an existing key keeps its place, a new one goes last. *)
Fixpoint dict_set {A} (k : string) (v : A) (d : list (string * A))
    : list (string * A) :=
  match d with
  | [] => [(k, v)]
  | (k', v') :: d' =>
      if String.eqb k k' then (k, v) :: d' else (k', v') :: dict_set k v d'
  end.

Definition type_name (c : cfg) : string :=
  match c with
  | CVal v => PyFloat.type_name v
  | CSeq _ => "list"
  | CDict _ => "dict"
  end.

(** [value.get(k)]: only a dict has the method. *)
Definition cfg_get (value : cfg) (k : string) : result cfg :=
  match value with
  | CDict d =>
      Ok (match dict_get k d with Some v => v | None => CVal PyNone end)
  | other =>
      Raise (Exn "AttributeError"
                 ("'" +:+ type_name other +:+ "' object has no attribute 'get'"))
  end.

(** [config[k]] for a string [k]. *)
Definition cfg_getitem (config : cfg) (k : string) : result cfg :=
  match config with
  | CDict d =>
      match dict_get k d with
      | Some v => Ok v
      | None => Raise (Exn "KeyError" ("'" +:+ k +:+ "'"))
      end
  | CSeq _ =>
      Raise (Exn "TypeError" "list indices must be integers or slices, not str")
  | CVal (PyStr _) =>
      Raise (Exn "TypeError" "string indices must be integers, not 'str'")
  | other =>
      Raise (Exn "TypeError"
                 ("'" +:+ type_name other +:+ "' object is not subscriptable"))
  end.

(** [config[k] = value] for a string [k]. *)
Definition cfg_setitem (config : cfg) (k : string) (value : cfg) : result cfg :=
  match config with
  | CDict d => Ok (CDict (dict_set k value d))
  | CSeq _ =>
      Raise (Exn "TypeError" "list indices must be integers or slices, not str")
  | other =>
      Raise (Exn "TypeError"
                 ("'" +:+ type_name other
                  +:+ "' object does not support item assignment"))
  end.

(** [for k in keys: value = value.get(k)]. *)
Fixpoint get_walk (keys : list string) (value : cfg) : result cfg :=
  match keys with
  | [] => Ok value
  | k :: ks =>
      match cfg_get value k with
      | Ok v => get_walk ks v
      | Raise e => Raise e
      end
  end.

(** [get_config(key)] of [config.py], on the dict [CONFIG]. *)
Definition get_config (CONFIG : cfg) (key : option string) : result cfg :=
  match key with
  | Some k =>
      if negb (String.eqb k "") then get_walk (split_on "." k) CONFIG
      else Ok CONFIG
  | None => Ok CONFIG
  end.

(** [for k in keys[:-1]: config = config[k]] and then
    [config[keys[-1]] = value].  The dicts on the way are mutated in
    place, so [CONFIG] is rebuilt along the path. *)
Fixpoint set_walk (keys : list string) (value : cfg) (config : cfg)
    : result cfg :=
  match keys with
  | [] => Ok config
  | [k] => cfg_setitem config k value
  | k :: ks =>
      match cfg_getitem config k with
      | Ok sub =>
          match set_walk ks value sub with
          | Ok sub' => cfg_setitem config k sub'
          | Raise e => Raise e
          end
      | Raise e => Raise e
      end
  end.

(** [update_config(key, value)] of [config.py]: the new [CONFIG]. *)
Definition update_config (CONFIG : cfg) (key : string) (value : cfg)
    : result cfg :=
  set_walk (split_on "." key) value CONFIG.

(** [get_config(key)] as [app.py] defines it when [config.py] is absent:
    [CONFIG.get(key) if key else CONFIG]. *)
Definition fallback_get_config (CONFIG : cfg) (key : option string)
    : result cfg :=
  match key with
  | Some k => if negb (String.eqb k "") then cfg_get CONFIG k else Ok CONFIG
  | None => Ok CONFIG
  end.

End Config.

(* ===================================================================== *)
(** ** Submission ([convert] of [app.py]) *)
(* ===================================================================== *)

Module Submit.

(** One element of ['sources']: the keys it may carry. *)
Record source : Type := Source {
  src_type : option string;
  src_name : option string;
  src_url : option string;
  src_path : option string
}.

(** The JSON body of a conversion request. *)
Record convert_data : Type := ConvertData {
  cd_format : option string;
  cd_sample_rate : option pyval;
  cd_bitrate : option pyval;
  cd_sources : option (list source)
}.

(** The arguments of one [threading.Thread(target=process_conversion_job,
    args=...)]. *)
Record thread_args : Type := ThreadArgs {
  ta_job_id : string;
  ta_source_type : string;
  ta_source_data : string;
  ta_output_format : string;
  ta_sample_rate : pyval;
  ta_bitrate : pyval
}.

(** The state [convert] acts on: the registry, the threads started so
    far, and how many identifiers [uuid.uuid4()] has handed out. *)
Record server : Type := Server {
  conversion_jobs : gmap string App.job;
  started : list thread_args;
  uuids_drawn : nat
}.

Inductive convert_response : Type :=
  | ConvertError (msg : string) (code : Z)
  | ConvertJobIds (job_ids : list string).

Section WithUuid.
(** The identifiers [uuid.uuid4()] hands out, in order. *)
Variable uuid4 : nat -> string.

Definition draw_uuid : M server string :=
  fun s => (Server (conversion_jobs s) (started s) (S (uuids_drawn s)),
            Ok (uuid4 (uuids_drawn s))).

(** [source[k]]. *)
Definition source_getitem (field : option string) (k : string)
    : M server string :=
  match field with
  | Some v => ret v
  | None => raise (Exn "KeyError" ("'" +:+ k +:+ "'"))
  end.

(** The body of [for source in sources:]. *)
Definition convert_source (output_format : string)
    (sample_rate bitrate : pyval) (src : source) : M server string :=
  (job_id <- draw_uuid ;;
   source_type <- source_getitem (src_type src) "type" ;;
   modify (fun s =>
     Server (<[ job_id :=
                App.new_job job_id (default "Unknown" (src_name src)) ]>
               (conversion_jobs s))
            (started s) (uuids_drawn s)) ;;;
   source_data <-
     (if String.eqb source_type "youtube"
      then source_getitem (src_url src) "url"
      else source_getitem (src_path src) "path") ;;
   modify (fun s =>
     Server (conversion_jobs s)
            (started s ++ [ThreadArgs job_id source_type source_data
                             output_format sample_rate bitrate])
            (uuids_drawn s)) ;;;
   ret job_id)%py.

(** [for source in sources: ...; job_ids.append(job_id)]. *)
Fixpoint convert_sources (output_format : string)
    (sample_rate bitrate : pyval) (sources : list source)
    : M server (list string) :=
  match sources with
  | [] => ret []
  | src :: rest =>
      (job_id <- convert_source output_format sample_rate bitrate src ;;
       job_ids <- convert_sources output_format sample_rate bitrate rest ;;
       ret (job_id :: job_ids))%py
  end.

(** [convert()], on the parsed body. *)
Definition convert (data : convert_data) : M server convert_response :=
  let output_format := default "ogg" (cd_format data) in
  let sample_rate := default PyNone (cd_sample_rate data) in
  let bitrate := default PyNone (cd_bitrate data) in
  let sources := default [] (cd_sources data) in
  match sources with
  | [] => ret (ConvertError "No sources provided" 400)
  | _ =>
      (job_ids <- convert_sources output_format sample_rate bitrate sources ;;
       ret (ConvertJobIds job_ids))%py
  end.

End WithUuid.

End Submit.

(* ===================================================================== *)
(** ** The retention sweep ([cleanup_old_files] of [app.py]) *)
(* ===================================================================== *)

Module Sweeper.

(** What the sweep reads from the system for a path: its modification
    time, or the error of [os.path.getmtime]; and the reading of
    [time.time()] while that path is examined. *)
Record clock : Type := Clock {
  getmtime : string -> result spec_float;
  time_time : string -> spec_float
}.

(** [mtime < now - 86400]. *)
Definition is_expired (mtime now : spec_float) : bool :=
  SFltb mtime (SFsub PyFloat.prec PyFloat.emax now (PyFloat.of_int 86400)).

(** [for x in l: body(x)], stopping at the first exception. *)
Fixpoint for_each {S A} (l : list A) (body : A -> M S unit) : M S unit :=
  match l with
  | [] => ret tt
  | x :: l' => (body x ;;; for_each l' body)%py
  end.

Definition managed_folders : list string := ["temp"; "uploads"; "outputs"].

Section WithEnv.
Context {J : Type}.
Variable E : env.
Variable K : clock.

(** The body of [for file in os.listdir(folder):]. *)
Definition sweep_file (folder file : string) : M (world J) unit :=
  let filepath := OsPath.join folder file in
  (mtime <- lift_result (getmtime K filepath) ;;
   if is_expired mtime (time_time K filepath)
   then try_except (os_remove E filepath) (fun _ => ret tt)
   else ret tt)%py.

Definition sweep_folder (folder : string) : M (world J) unit :=
  (fs <- gets w_fs ;;
   for_each (os_listdir folder fs) (sweep_file folder))%py.

(** One turn of the [while True:] loop, after the sleep. *)
Definition cleanup_pass : M (world J) unit :=
  for_each managed_folders sweep_folder.

End WithEnv.

End Sweeper.

(* ===================================================================== *)
(** ** The presets of the batch tool ([main] of [cli_converter.py]) *)
(* ===================================================================== *)

Module CliMain.

(** The namespace [argparse] hands to [main]. *)
Record args : Type := Args {
  a_input : list string;
  a_format : string;
  a_sample_rate : option Z;
  a_bitrate : option string;
  a_output_dir : string;
  a_preset : option string;
  a_jobs : Z
}.

(** [choices] of the [--preset] option. *)
Definition preset_choices : list string := ["hoi4"; "hq"; "compressed"].

(** [if args.preset: ...]: the assignments to [args.format],
    [args.sample_rate] and [args.bitrate]. *)
Definition apply_preset (a : args) : args :=
  match a_preset a with
  | Some p =>
      if String.eqb p "" then a
      else if String.eqb p "hoi4" then
        Args (a_input a) "ogg" (Some 32000) (Some "128k")
             (a_output_dir a) (a_preset a) (a_jobs a)
      else if String.eqb p "hq" then
        Args (a_input a) "flac" None None
             (a_output_dir a) (a_preset a) (a_jobs a)
      else if String.eqb p "compressed" then
        Args (a_input a) "mp3" (Some 44100) (Some "128k")
             (a_output_dir a) (a_preset a) (a_jobs a)
      else a
  | None => a
  end.

End CliMain.

(* ===================================================================== *)
(** ** Vocabulary of the statements *)
(* ===================================================================== *)

(** No encoder call in a list of events carries the key [k]. *)
Definition encodes_without (k : string) (evs : list event) : Prop :=
  Forall (fun ev => match ev with
                    | EvEncode _ _ p => p !! k = None
                    | _ => True
                    end) evs.

(** The percentages a run has signalled, in order. *)
Definition progress_values (evs : list event) : list Z :=
  omap (fun ev => match ev with EvProgress p _ => Some p | _ => None end) evs.

(** The paths a run has asked [os.remove] to delete. *)
Definition removed_paths (evs : list event) : list string :=
  omap (fun ev => match ev with EvRemove p => Some p | _ => None end) evs.

(** What a run has signalled as its end. *)
Definition finished_signals (evs : list event) : list (bool * string) :=
  omap (fun ev => match ev with EvFinished b m => Some (b, m) | _ => None end)
       evs.


(** A list of percentages never goes down, and stays within 0..100. *)
Fixpoint nondecreasing (l : list Z) : bool :=
  match l with
  | a :: (b :: _) as rest => Z.leb a b && nondecreasing rest
  | _ => true
  end.

Definition within_0_100 (l : list Z) : bool :=
  forallb (fun p => Z.leb 0 p && Z.leb p 100) l.

Definition reaches_100 (l : list Z) : bool := existsb (Z.eqb 100) l.

Definition reaches_completed (l : list App.status) : bool :=
  existsb (fun s => bool_decide (s = App.Completed)) l.

(** One step of the job state machine [Queued -> Processing ->
    {Completed | Failed}], a store that leaves the status alone being a
    step too. *)
Definition step_allowed (s s' : App.status) : bool :=
  match s, s' with
  | App.Queued, App.Queued | App.Queued, App.Processing
  | App.Processing, App.Processing
  | App.Processing, App.Completed | App.Processing, App.Failed
  | App.Completed, App.Completed | App.Failed, App.Failed => true
  | _, _ => false
  end.

Fixpoint follows_machine (l : list App.status) : bool :=
  match l with
  | a :: (b :: _) as rest => step_allowed a b && follows_machine rest
  | _ => true
  end.

(** The output path is populated exactly when the status is completed. *)
Definition output_iff_completed (j : App.job) : bool :=
  bool_decide (is_Some (App.job_output_path j)
               <-> App.job_status j = App.Completed).



(** The path [p] names an entry directly under [folder]. *)
Definition directly_under (folder p : string) : bool :=
  match strip_prefix (OsPath.join folder "") p with
  | Some n => negb (str_in "/" n || String.eqb n "")
  | None => false
  end.

(** The sweep finds the file at [p] older than a day. *)
Definition expired (K : Sweeper.clock) (p : string) : Prop :=
  exists t, Sweeper.getmtime K p = Ok t
            /\ Sweeper.is_expired t (Sweeper.time_time K p) = true.

(** What one world may become through deletions of expired files of the
    managed folders only. *)
Definition swept_from {J} (K : Sweeper.clock) (w w' : world J) : Prop :=
  w_mem w' = w_mem w
  /\ (forall p, p ∈ w_fs w' -> p ∈ w_fs w)
  /\ (forall p, p ∈ w_fs w -> p ∉ w_fs w' ->
        (exists folder, folder ∈ Sweeper.managed_folders
                        /\ directly_under folder p = true)
        /\ expired K p).

(** A clock for the concrete sweeps below: every file was last modified
    at time 0, and it is now 100000 seconds later (more than a day). *)
Definition late_clock : Sweeper.clock :=
  Sweeper.Clock (fun _ => Ok (PyFloat.of_int 0))
                (fun _ => PyFloat.of_int 100000).

(** A clock whose [getmtime] fails, as for a file that has just vanished. *)
Definition broken_clock : Sweeper.clock :=
  Sweeper.Clock
    (fun p => Raise (Exn "FileNotFoundError"
                         ("[Errno 2] No such file or directory: '" +:+ p +:+ "'")))
    (fun _ => PyFloat.of_int 100000).

(** The procedure [m] signals no end of a run, whatever it is started
    on. *)
Definition silent {J A} (m : M (world J) A) : Prop :=
  forall w, finished_signals (w_events (fst (m w)))
            = finished_signals (w_events w).

(** The character [c] does not occur in [s]. *)
Fixpoint char_free (c : ascii) (s : string) : bool :=
  match s with
  | EmptyString => true
  | String a rest => negb (Ascii.eqb a c) && char_free c rest
  end.

(* ===================================================================== *)
(** ** Facts about strings *)
(* ===================================================================== *)

#[local] Arguments String.append : simpl nomatch.

Lemma prefix_iff (p s : string) :
  String.prefix p s = true <-> exists r, s = p +:+ r.
Proof.
  revert s. induction p as [|a p IH]; intros s.
  - split; [intros _; by exists s | by destruct s].
  - destruct s as [|b s]; simpl.
    + split; [done | intros [r Hr]; discriminate].
    + destruct (Ascii.ascii_dec a b) as [->|Hne].
      * rewrite IH. split; intros [r Hr]; exists r; [by rewrite Hr | by inversion Hr].
      * split; [done | intros [r Hr]; inversion Hr; congruence].
Qed.

Lemma str_in_iff (needle hay : string) :
  str_in needle hay = true <-> exists a b, hay = a +:+ needle +:+ b.
Proof.
  induction hay as [|c hay IH].
  - cbn [str_in]. rewrite orb_false_r, prefix_iff. split.
    + intros [r Hr]. by exists "", r.
    + intros [a [b Hab]]. destruct a; [by exists b | discriminate].
  - cbn [str_in]. rewrite orb_true_iff, prefix_iff, IH. split.
    + intros [[r Hr] | [a [b Hab]]].
      * by exists "", r.
      * exists (String c a), b. by rewrite Hab.
    + intros [[|a0 a] [b Hab]].
      * left. by exists b.
      * right. exists a, b. by inversion Hab.
Qed.

Lemma app_assoc_str (a b c : string) : (a +:+ b) +:+ c = a +:+ b +:+ c.
Proof. induction a; simpl; congruence. Qed.




Lemma strip_prefix_Some (p s r : string) :
  strip_prefix p s = Some r -> s = p +:+ r.
Proof.
  revert s. induction p as [|a p IH]; intros [|b s] H; simpl in *;
    try congruence.
  destruct (Ascii.eqb_spec a b) as [->|]; [|done].
  f_equal. by apply IH.
Qed.

Lemma occurs_in_refl x : occurs_in x x.
Proof.
  exists "", "". simpl. induction x; simpl; congruence.
Qed.

Lemma occurs_in_trans x y z : occurs_in x y -> occurs_in y z -> occurs_in x z.
Proof.
  intros [a [b ->]] [c [d ->]]. exists (c +:+ a), (b +:+ d).
  by rewrite !app_assoc_str.
Qed.

Lemma occurs_in_suffix a x y : y = a +:+ x -> occurs_in x y.
Proof. intros ->. exists a, "". f_equal. induction x; simpl; congruence. Qed.

Lemma occurs_in_prefix x b y : y = x +:+ b -> occurs_in x y.
Proof. intros ->. by exists "", b. Qed.

Lemma take_until_prefix stop s : exists b, s = SpecModel.take_until stop s +:+ b.
Proof.
  induction s as [|c s [b IH]]; simpl; [by exists "" |].
  destruct (stop c); simpl; [by eexists | exists b; congruence].
Qed.

Lemma drop_until_suffix stop s r :
  SpecModel.drop_until stop s = Some r -> exists a, s = a +:+ r.
Proof.
  induction s as [|c s IH]; simpl; [done |].
  destruct (stop c).
  - intros [= ->]. by exists (String c "").
  - intros H. destruct (IH H) as [a ->]. by exists (String c a).
Qed.

Lemma substring_suffix (n : string) (i : nat) :
  exists a, n = a +:+ String.substring i (String.length n - i) n.
Proof.
  revert i. induction n as [|c n IH]; intros i.
  - exists "". by destruct i.
  - destruct i as [|i]; simpl.
    + exists "". simpl. f_equal. clear IH. induction n as [|d n IHn]; simpl; [done |].
      f_equal. exact IHn.
    + destruct (IH i) as [a Ha]. exists (String c a). simpl. by f_equal.
Qed.

Lemma hostname_occurs (d : string) : occurs_in (SpecModel.hostname d) d.
Proof.
  unfold SpecModel.hostname.
  set (n := SpecModel.netloc d).
  assert (Hn : occurs_in n d).
  { unfold n, SpecModel.netloc.
    destruct (strip_prefix "//" (SpecModel.after_scheme d)) as [r|] eqn:Hr.
    - apply strip_prefix_Some in Hr.
      eapply occurs_in_trans with r.
      + destruct (take_until_prefix
          (fun c => Ascii.eqb c "/" || Ascii.eqb c "?" || Ascii.eqb c "#") r)
          as [b Hb].
        exact (occurs_in_prefix _ _ _ Hb).
      + eapply occurs_in_trans with (SpecModel.after_scheme d).
        * exact (occurs_in_suffix _ _ _ Hr).
        * unfold SpecModel.after_scheme.
          destruct (SpecModel.drop_until (Ascii.eqb ":") d) as [rest|] eqn:Hd;
            [| apply occurs_in_refl].
          destruct (_ && _); [| apply occurs_in_refl].
          destruct (drop_until_suffix _ _ _ Hd) as [a Ha].
          exact (occurs_in_suffix _ _ _ Ha).
    - exists "", d. reflexivity. }
  eapply occurs_in_trans; [| exact Hn].
  match goal with |- occurs_in (SpecModel.take_until _ ?hp) _ =>
    eapply occurs_in_trans with hp end.
  - match goal with |- occurs_in (SpecModel.take_until ?f ?hp) _ =>
      destruct (take_until_prefix f hp) as [b Hb] end.
    exact (occurs_in_prefix _ _ _ Hb).
  - destruct (rfind "@" n) as [i|]; [| apply occurs_in_refl].
    destruct (substring_suffix n (S i)) as [a Ha].
    exact (occurs_in_suffix _ _ _ Ha).
Qed.

Lemma str_in_occurs (needle x y : string) :
  occurs_in x y -> str_in needle x = true -> str_in needle y = true.
Proof.
  intros Hxy. rewrite !str_in_iff. intros Hn.
  exact (occurs_in_trans _ _ _ Hn Hxy).
Qed.

(** The regular expression of [app.py] and the two [in] tests of the
    other front ends decide the same thing. *)
Lemma app_is_youtube_url_unfold (url : string) :
  App.is_youtube_url url = str_in "youtube.com" url || str_in "youtu.be" url.
Proof.
  unfold App.is_youtube_url.
  induction url as [|c url IH].
  - reflexivity.
  - cbn [re_search_literals List.find str_in].
    destruct (String.prefix "youtube.com" (String c url)); [reflexivity |].
    destruct (String.prefix "youtu.be" (String c url)).
    + cbn. by rewrite orb_true_r.
    + rewrite IH. reflexivity.
Qed.

(* ===================================================================== *)
(** ** Source classification *)
(* ===================================================================== *)

(** C7, as the code has it: a descriptor is taken for a remote video
    exactly when the text [youtube.com] or [youtu.be] occurs anywhere in
    it; the three front ends agree on this, and a descriptor whose host
    part carries one of the two names is among those. *)
Theorem is_youtube_url_iff_substring (url : string) :
  (App.is_youtube_url url = true <->
     occurs_in "youtube.com" url \/ occurs_in "youtu.be" url)
  /\ Cli.is_youtube_url url = App.is_youtube_url url
  /\ Gui._is_youtube_url (PyStr url) = App.is_youtube_url url
  /\ (SpecModel.hostname_is_video_host url = true ->
      App.is_youtube_url url = true).
Proof.
  rewrite app_is_youtube_url_unfold.
  split; [| split; [reflexivity | split; [reflexivity |]]].
  - rewrite orb_true_iff, !str_in_iff. reflexivity.
  - unfold SpecModel.hostname_is_video_host.
    rewrite !orb_true_iff.
    intros [H | H]; [left | right];
      exact (str_in_occurs _ _ _ (hostname_occurs url) H).
Qed.

(** C7, as stated, fails: the host of this address is [example.com], yet
    every front end classifies the address as a remote video. *)
Lemma classification_not_by_hostname :
  let d := "https://example.com/watch?v=youtu.be" in
  SpecModel.hostname d = "example.com"
  /\ SpecModel.hostname_is_video_host d = false
  /\ App.is_youtube_url d = true
  /\ Cli.is_youtube_url d = true
  /\ Gui._is_youtube_url (PyStr d) = true.
Proof. vm_compute. repeat split; reflexivity. Qed.

(* ===================================================================== *)
(** ** Encoder parameters *)
(* ===================================================================== *)


Lemma audio_params_ar fi sr br :
  audio_params fi sr br !! "ar" = if truthy sr then Some sr else None.
Proof.
  unfold audio_params. destruct (truthy sr), (truthy br);
    by simplify_map_eq.
Qed.

Lemma audio_params_bitrate fi sr br :
  audio_params fi sr br !! "audio_bitrate" = if truthy br then Some br else None.
Proof.
  unfold audio_params. destruct (truthy sr), (truthy br);
    by simplify_map_eq.
Qed.


Lemma catalog_cases fmt fi :
  AUDIO_FORMATS !! fmt = Some fi -> (fmt, fi) ∈ catalog_entries.
Proof. apply elem_of_list_to_map_2. Qed.



Lemma gui_params_ar fmt settings :
  Gui._get_audio_params fmt settings !! "ar"
  = let v := Gui.settings_get settings "sample_rate" in
    if truthy v then Some v else None.
Proof.
  unfold Gui._get_audio_params. cbv zeta.
  destruct (truthy (Gui.settings_get settings "sample_rate")),
           (truthy (Gui.settings_get settings "bitrate")),
           (truthy (Gui.settings_get settings "channels"));
    by simplify_map_eq.
Qed.

Lemma gui_params_bitrate fmt settings :
  Gui._get_audio_params fmt settings !! "audio_bitrate"
  = let v := Gui.settings_get settings "bitrate" in
    if truthy v then Some v else None.
Proof.
  unfold Gui._get_audio_params. cbv zeta.
  destruct (truthy (Gui.settings_get settings "sample_rate")),
           (truthy (Gui.settings_get settings "bitrate")),
           (truthy (Gui.settings_get settings "channels"));
    by simplify_map_eq.
Qed.

(** Unfolding of the monad on a run, and the case analysis on what a
    collaborator answers. *)
Ltac unfold_run :=
  cbv [bind ret raise try_except try_except_class try_finally modify gets
       lift_result store emit set_fs extract_info no_hook
       run_ffmpeg os_remove unpack_pair info_get_title];
  cbn [w_fs w_mem w_events w_hist fst snd app].

(** What [convert_audio] of [app.py] asks of the encoder. *)
Lemma app_convert_audio_events E input fmt fi sr br jid (w : world App.job) :
  AUDIO_FORMATS !! fmt = Some fi ->
  w_events (fst (App.convert_audio E input fmt sr br jid w))
  = (w_events w ++ [EvEncode input (App.output_path_of input fi jid)
                            (audio_params fi sr br)])%list.
Proof.
  intros H. unfold App.convert_audio. rewrite H. unfold_run.
  destruct (ffmpeg_run E _ _ _ _) as [fs' [|stderr|e]]; cbn; try reflexivity.
  destruct (String.eqb _ _); reflexivity.
Qed.

Lemma app_convert_audio_unsupported E input fmt sr br jid (w : world App.job) :
  AUDIO_FORMATS !! fmt = None ->
  App.convert_audio E input fmt sr br jid w
  = (w, Raise (Exn "ValueError" ("Unsupported format: " +:+ fmt))).
Proof. intros H. unfold App.convert_audio. by rewrite H. Qed.




Lemma cli_convert_audio_events E input fmt fi sr br dir (w : world unit) :
  Cli.formats !! fmt = Some fi ->
  w_events (fst (Cli.convert_audio E input fmt sr br dir w))
  = (w_events w ++ [EvEncode input (Cli.output_path_of input fi dir)
                            (audio_params fi sr br)])%list.
Proof.
  intros H. unfold Cli.convert_audio. rewrite H. unfold_run.
  destruct (ffmpeg_run E _ _ _ _) as [fs' [|stderr|e]]; cbn; try reflexivity.
  destruct (String.eqb _ _); reflexivity.
Qed.

Lemma cli_convert_audio_unsupported E input fmt sr br dir (w : world unit) :
  Cli.formats !! fmt = None ->
  Cli.convert_audio E input fmt sr br dir w
  = (w, Raise (Exn "ValueError" ("Unsupported format: " +:+ fmt))).
Proof. intros H. unfold Cli.convert_audio. by rewrite H. Qed.

Lemma encodes_without_single k i o p :
  p !! k = None -> encodes_without k [EvEncode i o p].
Proof. intros H. constructor; [exact H | constructor]. Qed.

(** C9: a sample rate of 0 and an empty bitrate string are falsy, so the
    converters treat them as absent.  In [app.py] and in
    [cli_converter.py] no encoder call of such a request carries a
    sample-rate or a bitrate key; in the desktop front end the parameters
    built from such settings carry neither. *)
Theorem falsy_fields_are_dropped (E : env) (input fmt dir : string)
    (jid : option string) (j : App.job) (fs : filesystem)
    (fi : format_info) (sr br : pyval) (settings : gmap string pyval) :
  truthy (PyInt 0) = false
  /\ truthy (PyStr "") = false
  /\ audio_params fi (PyInt 0) br !! "ar" = None
  /\ audio_params fi sr (PyStr "") !! "audio_bitrate" = None
  /\ encodes_without "ar"
       (w_events (fst (App.convert_audio E input fmt (PyInt 0) br jid
                         (World j fs [] []))))
  /\ encodes_without "audio_bitrate"
       (w_events (fst (App.convert_audio E input fmt sr (PyStr "") jid
                         (World j fs [] []))))
  /\ encodes_without "ar"
       (w_events (fst (Cli.convert_audio E input fmt (PyInt 0) br dir
                         (World tt fs [] []))))
  /\ encodes_without "audio_bitrate"
       (w_events (fst (Cli.convert_audio E input fmt sr (PyStr "") dir
                         (World tt fs [] []))))
  /\ Gui._get_audio_params fmt (<["sample_rate" := PyInt 0]> settings)
       !! "ar" = None
  /\ Gui._get_audio_params fmt (<["bitrate" := PyStr ""]> settings)
       !! "audio_bitrate" = None.
Proof.
  split; [reflexivity |]. split; [reflexivity |].
  split; [by rewrite audio_params_ar |].
  split; [by rewrite audio_params_bitrate |].
  repeat split.
  - destruct (AUDIO_FORMATS !! fmt) as [fi'|] eqn:H.
    + rewrite (app_convert_audio_events _ _ _ _ _ _ _ _ H). cbn [w_events app].
      apply encodes_without_single. by rewrite audio_params_ar.
    + rewrite (app_convert_audio_unsupported _ _ _ _ _ _ _ H). constructor.
  - destruct (AUDIO_FORMATS !! fmt) as [fi'|] eqn:H.
    + rewrite (app_convert_audio_events _ _ _ _ _ _ _ _ H). cbn [w_events app].
      apply encodes_without_single. by rewrite audio_params_bitrate.
    + rewrite (app_convert_audio_unsupported _ _ _ _ _ _ _ H). constructor.
  - destruct (Cli.formats !! fmt) as [fi'|] eqn:H.
    + rewrite (cli_convert_audio_events _ _ _ _ _ _ _ _ H). cbn [w_events app].
      apply encodes_without_single. by rewrite audio_params_ar.
    + rewrite (cli_convert_audio_unsupported _ _ _ _ _ _ _ H). constructor.
  - destruct (Cli.formats !! fmt) as [fi'|] eqn:H.
    + rewrite (cli_convert_audio_events _ _ _ _ _ _ _ _ H). cbn [w_events app].
      apply encodes_without_single. by rewrite audio_params_bitrate.
    + rewrite (cli_convert_audio_unsupported _ _ _ _ _ _ _ H). constructor.
  - rewrite gui_params_ar. unfold Gui.settings_get.
    by rewrite lookup_insert_eq.
  - rewrite gui_params_bitrate. unfold Gui.settings_get.
    by rewrite lookup_insert_eq.
Qed.

(* ===================================================================== *)
(** ** Runs of the web runner *)
(* ===================================================================== *)

Lemma run_hooks_no_hook {J} (ds : list progress_dict) (w : world J) :
  run_hooks no_hook ds w = (w, Ok tt).
Proof.
  induction ds as [|d ds IH]; [reflexivity |].
  cbn [run_hooks]. unfold bind at 1. unfold no_hook at 1. unfold ret at 1.
  exact IH.
Qed.

(** The scratch template [download_youtube_audio] hands to the extractor. *)
Lemma download_youtube_audio_world E url id (w : world App.job) :
  let tmpl := OsPath.join "temp" (id +:+ "_youtube.%(ext)s") in
  let o := ydl_extract_info E url tmpl (w_fs w) in
  fst (App.download_youtube_audio E url id w)
  = World (w_mem w) (ex_fs o) (w_events w ++ [EvDownload url tmpl]) (w_hist w).
Proof.
  cbv zeta. unfold App.download_youtube_audio, try_except, bind at 1.
  unfold extract_info, bind at 1. unfold emit at 1. unfold modify at 1.
  unfold bind at 1. unfold gets at 1. unfold bind at 1.
  rewrite run_hooks_no_hook. unfold_run.
  destruct (ex_result _) as [[|[t|]]|e]; reflexivity.
Qed.





Lemma extract_info_no_hook {J} E url tmpl (w : world J) :
  extract_info E no_hook url tmpl w
  = (World (w_mem w) (ex_fs (ydl_extract_info E url tmpl (w_fs w)))
           (w_events w ++ [EvDownload url tmpl]) (w_hist w),
     ex_result (ydl_extract_info E url tmpl (w_fs w))).
Proof.
  unfold extract_info.
  unfold bind at 1. unfold emit at 1. unfold modify at 1.
  unfold bind at 1. unfold gets at 1.
  unfold bind at 1. rewrite run_hooks_no_hook.
  unfold bind, set_fs, modify, ret, raise. cbn [w_fs w_mem w_events w_hist].
  by destruct (ex_result _).
Qed.

Lemma download_youtube_audio_snd_indep E url id j fs evs hist j' evs' hist' :
  snd (App.download_youtube_audio E url id (World j fs evs hist))
  = snd (App.download_youtube_audio E url id (World j' fs evs' hist')).
Proof.
  unfold App.download_youtube_audio, try_except.
  unfold bind at 1. rewrite extract_info_no_hook.
  unfold bind at 3. rewrite extract_info_no_hook.
  cbn [w_fs w_mem w_events w_hist].
  destruct (ex_result _) as [[|[t|]]|e]; reflexivity.
Qed.

(** C2, as the code has it: a job whose format is not in the catalog
    always ends failed, with no output path, and the encoder is never
    called.  For an uploaded file nothing at all is asked of the
    collaborators and the failure detail is the unsupported-format text.
    For a YouTube source the download is performed first; the failure
    detail is the unsupported-format text when the download yielded a
    file. *)
Theorem unsupported_format_never_encodes (E : env) (id name : string)
    (fs : filesystem) (source_type source_data fmt : string)
    (sr br : pyval) :
  AUDIO_FORMATS !! fmt = None ->
  let w := App.run_job E id name fs source_type source_data fmt sr br in
  let tmpl := OsPath.join "temp" (id +:+ "_youtube.%(ext)s") in
  App.job_status (w_mem w) = App.Failed
  /\ App.job_output_path (w_mem w) = None
  /\ is_Some (App.job_error (w_mem w))
  /\ (forall i o p, EvEncode i o p ∉ w_events w)
  /\ (source_type <> "youtube" ->
        w_events w = [] /\ w_fs w = fs
        /\ App.job_error (w_mem w) = Some ("Unsupported format: " +:+ fmt))
  /\ (source_type = "youtube" ->
        w_events w = [EvDownload source_data tmpl]
        /\ w_fs w = ex_fs (ydl_extract_info E source_data tmpl fs)
        /\ forall j evs hist p,
             snd (App.download_youtube_audio E source_data id
                    (World j fs evs hist)) = Ok (Some p) ->
             App.job_error (w_mem w)
             = Some ("Unsupported format: " +:+ fmt)).
Proof.
  intros Hfmt. cbv zeta.
  unfold App.run_job, App.process_conversion_job.
  destruct (String.eqb source_type "youtube") eqn:Hst.
  - apply String.eqb_eq in Hst. subst source_type. unfold_run.
    cbn [App.job_id App.with_status App.with_progress App.with_message
         App.new_job].
    match goal with |- context [App.download_youtube_audio E ?u ?i ?w] =>
      pose proof (download_youtube_audio_world E u i w) as Hw;
      pose proof (fun j evs hist =>
        download_youtube_audio_snd_indep E u i j fs evs hist
          (w_mem w) (w_events w) (w_hist w)) as Hr;
      cbn [w_fs w_mem w_events w_hist] in Hr, Hw;
      destruct (App.download_youtube_audio E u i w) as [w' r]
    end.
    cbn [fst snd] in Hr, Hw. subst w'.
    destruct r as [[[p t]|]|e]; unfold_run;
      rewrite ?(app_convert_audio_unsupported E _ fmt sr br _ _ Hfmt);
      unfold_run;
      cbn [App.job_id App.with_status App.with_progress App.with_message
           App.with_error App.with_filename App.new_job App.job_status
           App.job_error App.job_message App.job_output_path];
      repeat split; try done;
      try (intros i o q Hin; apply list_elem_of_singleton in Hin;
           discriminate);
      try (intros j evs hist q Hq; rewrite Hr in Hq; discriminate).
  - apply String.eqb_neq in Hst. unfold_run.
    rewrite (app_convert_audio_unsupported E _ fmt sr br _ _ Hfmt).
    unfold_run.
    cbn [App.job_id App.with_status App.with_progress App.with_message
         App.with_error App.new_job App.job_status App.job_error
         App.job_message App.job_output_path].
    repeat split; try done.
    intros i o q Hin. by apply elem_of_nil in Hin.
Qed.

Lemma unsupported_format_never_encodes_witness :
  AUDIO_FORMATS !! "mp4a" = None
  /\ App.job_status
       (w_mem (App.run_job Sample.env_all_ok "j1" "clip.wav"
                 ["uploads/clip.wav"] "file" "uploads/clip.wav" "mp4a"
                 PyNone PyNone))
     = App.Failed.
Proof.
  split; [reflexivity |].
  exact (proj1 (unsupported_format_never_encodes Sample.env_all_ok "j1"
                  "clip.wav" ["uploads/clip.wav"] "file" "uploads/clip.wav"
                  "mp4a" PyNone PyNone eq_refl)).
Defined.

(** C2, as stated, fails: the format [mp4a] is not in the catalog, and the
    YouTube job still performs the download (and leaves the downloaded
    file behind) before it fails on the format. *)
Lemma unsupported_format_still_downloads :
  AUDIO_FORMATS !! "mp4a" = None
  /\ w_events (Sample.web_run Sample.env_all_ok "mp4a")
     = [EvDownload Sample.video "temp/j1_youtube.%(ext)s"]
  /\ w_fs (Sample.web_run Sample.env_all_ok "mp4a") = [Sample.scratch]
  /\ App.job_error (w_mem (Sample.web_run Sample.env_all_ok "mp4a"))
     = Some "Unsupported format: mp4a".
Proof. vm_compute. repeat split; reflexivity. Qed.

(* ===================================================================== *)
(** ** Scratch files and terminal states *)
(* ===================================================================== *)

(** C3 on the web runner: the download has produced the scratch file and
    the encoder fails; the run ends without a single call of
    [os.remove], and the scratch file is still there.  And when the
    encoder succeeds but the removal is denied, the error of the removal
    becomes the job's failure detail and its status. *)
Theorem scratch_file_left_when_convert_fails :
  w_fs (Sample.web_run Sample.env_encoder_fails "mp3") = [Sample.scratch]
  /\ removed_paths (w_events (Sample.web_run Sample.env_encoder_fails "mp3"))
     = []
  /\ App.job_error (w_mem (Sample.web_run Sample.env_encoder_fails "mp3"))
     = Some "Conversion failed: boom"
  /\ removed_paths (w_events (Sample.web_run Sample.env_remove_denied "mp3"))
     = [Sample.scratch]
  /\ App.job_status (w_mem (Sample.web_run Sample.env_remove_denied "mp3"))
     = App.Failed
  /\ App.job_error (w_mem (Sample.web_run Sample.env_remove_denied "mp3"))
     = Some "[Errno 13] Permission denied: 'temp/j1_youtube.mp3'".
Proof. vm_compute. repeat split; reflexivity. Qed.

(** The desktop thread on the same two situations: its [finally] block
    removes the scratch file after a failed conversion, and a denied
    removal leaves the success signal as it was. *)
Lemma gui_thread_cleans_up :
  w_fs (Sample.gui_run Sample.gui_env_encoder_fails) = []
  /\ removed_paths (w_events (Sample.gui_run Sample.gui_env_encoder_fails))
     = [Sample.gui_scratch]
  /\ finished_signals (w_events (Sample.gui_run Sample.gui_env_encoder_fails))
     = [(false, "Conversion failed: boom")]
  /\ removed_paths (w_events (Sample.gui_run Sample.gui_env_remove_denied))
     = [Sample.gui_scratch]
  /\ finished_signals (w_events (Sample.gui_run Sample.gui_env_remove_denied))
     = [(true, "out/Song.ogg")]
  /\ snd (Gui.run Sample.gui_env_remove_denied Sample.video "ogg" "out" ∅
            (World None [] [] []))
     = Ok tt.
Proof. vm_compute. repeat split; reflexivity. Qed.

(** C4 on the web runner: the encoder succeeds, the job is stored as
    completed with its output path, and then the denied removal of the
    scratch file turns it into a failed job that keeps the output path. *)
Theorem completed_job_turns_failed :
  map App.job_status (w_hist (Sample.web_run Sample.env_remove_denied "mp3"))
  = [App.Queued; App.Processing; App.Processing; App.Processing;
     App.Processing; App.Processing; App.Processing;
     App.Completed; App.Completed; App.Completed; App.Completed;
     App.Failed; App.Failed; App.Failed]
  /\ App.job_status (w_mem (Sample.web_run Sample.env_remove_denied "mp3"))
     = App.Failed
  /\ App.job_output_path (w_mem (Sample.web_run Sample.env_remove_denied "mp3"))
     = Some "outputs/j1_j1_youtube.mp3"
  /\ App.job_progress (w_mem (Sample.web_run Sample.env_remove_denied "mp3"))
     = 100.
Proof. vm_compute. repeat split; reflexivity. Qed.

(* ===================================================================== *)
(** ** Progress *)
(* ===================================================================== *)

(** C5 on the desktop thread: a progress report that carries no
    ['total_bytes'] is divided by the default 1, so 1024 downloaded bytes
    are signalled as 51220 percent; the next signal of the run is 70. *)
Theorem gui_progress_escapes_range :
  w_events (fst (Gui._youtube_progress_hook Sample.report_without_total
                   (World None [] [] [])))
  = [EvProgress 51220 "Downloading... 102400%"]
  /\ progress_values (w_events (Sample.gui_run Sample.gui_env_reporting))
     = [10; 20; 51220; 70; 90; 100].
Proof. vm_compute. repeat split; reflexivity. Qed.

(* ===================================================================== *)
(** ** Retrieval *)
(* ===================================================================== *)



(* ===================================================================== *)
(** ** Output paths *)
(* ===================================================================== *)


Lemma is_hex_not_slash (c : ascii) : App.is_hex c = true -> c <> "/"%char.
Proof. intros H ->. discriminate. Qed.

Lemma startswith_slash_cons (c : ascii) (r : string) :
  startswith (String c r) "/" = bool_decide (c = "/"%char).
Proof.
  unfold startswith. cbn [String.prefix].
  destruct (Ascii.ascii_dec "/" c) as [<- | Hne].
  - by destruct r.
  - by rewrite bool_decide_eq_false_2.
Qed.

Lemma uuid_shaped_length (s : string) :
  App.uuid_shaped s = true -> String.length s = 36%nat.
Proof.
  unfold App.uuid_shaped. intros [H _]%andb_true_iff.
  by apply Nat.eqb_eq in H.
Qed.

Lemma uuid_shaped_no_leading_slash (s rest : string) :
  App.uuid_shaped s = true -> startswith (s +:+ rest) "/" = false.
Proof.
  unfold App.uuid_shaped. intros [Hlen Hc]%andb_true_iff.
  destruct s as [|c s]; [discriminate |].
  cbn [App.uuid_chars] in Hc. apply andb_true_iff in Hc as [Hc _].
  rewrite bool_decide_eq_false_2 in Hc
    by (intros H; repeat (apply elem_of_cons in H as [H | H]; [discriminate |]);
        by apply elem_of_nil in H).
  apply is_hex_not_slash in Hc.
  change (String c s +:+ rest) with (String c (s +:+ rest)).
  rewrite startswith_slash_cons. by apply bool_decide_eq_false_2.
Qed.

(** The web output path, spelled out. *)
Lemma app_output_path_shape (input : string) (fi : format_info) (id : string) :
  App.uuid_shaped id = true ->
  App.output_path_of input fi (Some id)
  = "outputs/" +:+ id +:+ "_" +:+ OsPath.stem input +:+ "." +:+ fmt_ext fi.
Proof.
  intros Hid. unfold App.output_path_of, OsPath.join, App.fmt_job_id.
  by rewrite (uuid_shaped_no_leading_slash _ _ Hid).
Qed.










(* ===================================================================== *)
(** ** Every run of the web runner *)
(* ===================================================================== *)

Lemma app_convert_audio_mem_hist E input fmt sr br jid (w : world App.job) :
  w_mem (fst (App.convert_audio E input fmt sr br jid w)) = w_mem w
  /\ w_hist (fst (App.convert_audio E input fmt sr br jid w)) = w_hist w.
Proof.
  unfold App.convert_audio. destruct (AUDIO_FORMATS !! fmt); [| done].
  unfold_run.
  destruct (ffmpeg_run E _ _ _ _) as [fs' [|stderr|e]]; unfold_run;
    try destruct (String.eqb _ _); done.
Qed.

Lemma app_convert_audio_removed E input fmt sr br jid (w : world App.job) :
  removed_paths (w_events (fst (App.convert_audio E input fmt sr br jid w)))
  = removed_paths (w_events w).
Proof.
  destruct (AUDIO_FORMATS !! fmt) as [fi|] eqn:H.
  - rewrite (app_convert_audio_events _ _ _ _ _ _ _ _ H).
    unfold removed_paths. rewrite omap_app. cbn [omap].
    by rewrite app_nil_r.
  - by rewrite (app_convert_audio_unsupported _ _ _ _ _ _ _ H).
Qed.

Ltac job_fields :=
  cbn [App.job_id App.job_status App.job_progress App.job_filename
       App.job_message App.job_output_path App.job_error
       App.with_status App.with_progress App.with_filename
       App.with_message App.with_output_path App.with_error App.new_job
       fst snd].

(** Case analysis on a run of [process_conversion_job]: the source type,
    what the download gives, what the conversion gives, and what the
    removal of the scratch file gives. *)
Ltac run_cases E :=
  unfold App.run_job, App.process_conversion_job;
  match goal with |- context [String.eqb ?st "youtube"] =>
    destruct (String.eqb st "youtube") end;
  unfold_run; job_fields;
  try (match goal with |- context [App.download_youtube_audio E ?u ?i ?w] =>
         let Hw := fresh "Hw" in
         pose proof (download_youtube_audio_world E u i w) as Hw;
         cbn [w_fs w_mem w_events w_hist] in Hw;
         let w' := fresh "w'" in let r := fresh "r" in
         destruct (App.download_youtube_audio E u i w) as [w' r];
         cbn [fst] in Hw; subst w';
         destruct r as [[[? ?]|]|?]; unfold_run; job_fields
       end);
  try (match goal with
       |- context [App.convert_audio E ?i ?f ?sr ?br ?jid ?w] =>
         let Hc := fresh "Hc" in
         let Hev := fresh "Hev" in
         pose proof (app_convert_audio_mem_hist E i f sr br jid w) as Hc;
         pose proof (app_convert_audio_removed E i f sr br jid w) as Hev;
         cbn [w_fs w_mem w_events w_hist] in Hc, Hev;
         let r := fresh "r" in
         destruct (App.convert_audio E i f sr br jid w) as [[? ? ? ?] r];
         cbn [fst w_mem w_hist w_events] in Hc, Hev; destruct Hc as [-> ->];
         destruct r as [?|?]; unfold_run; job_fields
       end);
  try (match goal with |- context [os_path_exists ?p ?f] =>
         let Hex := fresh "Hex" in
         destruct (os_path_exists p f) eqn:Hex;
         cbn [andb]; unfold_run; job_fields;
         rewrite ?Hex; unfold_run; job_fields
       end);
  try (match goal with
       | H : forall p f, os_remove_error E p f = None |- _ =>
           rewrite !H; unfold_run; job_fields
       end);
  try (match goal with |- context [os_remove_error E ?p ?f] =>
         destruct (os_remove_error E p f) end;
       unfold_run; job_fields).

(** The web half of C5, for every run: the stored percentages are
    0, 20, 60, 100 in this order, and 100 is stored in a run exactly when
    the status [Completed] is. *)
Lemma web_progress_trace (E : env) (id name : string) (fs : filesystem)
    (source_type source_data fmt : string) (sr br : pyval) :
  let w := App.run_job E id name fs source_type source_data fmt sr br in
  within_0_100 (map App.job_progress (w_hist w)) = true
  /\ nondecreasing (map App.job_progress (w_hist w)) = true
  /\ reaches_100 (map App.job_progress (w_hist w))
     = reaches_completed (map App.job_status (w_hist w)).
Proof.
  cbv zeta. run_cases E; cbn [map]; job_fields; repeat split; reflexivity.
Qed.

(** The part of C4 that holds on every run: the stored statuses begin
    with [Queued], the run ends in [Completed] or [Failed], and a failed
    run records its failure detail. *)
Lemma web_run_reaches_terminal (E : env) (id name : string) (fs : filesystem)
    (source_type source_data fmt : string) (sr br : pyval) :
  let w := App.run_job E id name fs source_type source_data fmt sr br in
  head (map App.job_status (w_hist w)) = Some App.Queued
  /\ last (w_hist w) = Some (w_mem w)
  /\ (App.job_status (w_mem w) = App.Completed
      \/ App.job_status (w_mem w) = App.Failed)
  /\ (App.job_status (w_mem w) = App.Failed ->
      is_Some (App.job_error (w_mem w))).
Proof.
  cbv zeta. run_cases E; cbn [map head]; job_fields;
    (split; [reflexivity |]); (split; [reflexivity |]);
    (split; [auto |]); intros; try done; by eexists.
Qed.

(** The rest of C4, for the runs in which the removal of the scratch file
    does not raise: every store is a step of the state machine, and the
    run ends with an output path exactly when it ends completed. *)
Lemma web_status_machine (E : env) (id name : string) (fs : filesystem)
    (source_type source_data fmt : string) (sr br : pyval) :
  (forall p fs', os_remove_error E p fs' = None) ->
  let w := App.run_job E id name fs source_type source_data fmt sr br in
  follows_machine (map App.job_status (w_hist w)) = true
  /\ output_iff_completed (w_mem w) = true.
Proof.
  intros Hrm. cbv zeta.
  run_cases E; cbn [map]; job_fields; split; try reflexivity;
    unfold output_iff_completed; job_fields; apply bool_decide_eq_true_2;
    (split; [by intros [? ?] || done | intros; done || by eexists]).
Qed.

(* ===================================================================== *)
(** ** Every run of the desktop thread *)
(* ===================================================================== *)


(** When the removal itself does not raise, the scratch file the thread
    has recorded in [temp_file] is gone at the end of the run, whether the
    conversion succeeded or failed. *)
Lemma gui_run_cleans_scratch (E : env) (source fmt dir : string)
    (settings : gmap string pyval) (w : world (option string)) :
  (forall p f, os_remove_error E p f = None) ->
  forall t, w_mem (fst (Gui.run E source fmt dir settings w)) = Some t ->
            t <> "" -> t ∉ w_fs (fst (Gui.run E source fmt dir settings w)).
Proof.
  intros Hrm t.
  destruct (Gui.run E source fmt dir settings w) as [wf rf] eqn:HR.
  cbn [fst]. revert HR.
  unfold Gui.run. unfold bind at 1. unfold store at 1.
  unfold modify at 1. unfold try_finally, try_except at 1.
  match goal with |- context [bind ?m ?k ?w0] =>
    destruct (bind m k w0) as [[m1 f1 e1 h1] [a|e]] end;
    unfold_run;
    (destruct m1 as [t'|]; [| by intros [= <- _]]);
    (destruct (negb (String.eqb t' "") && os_path_exists t' f1) eqn:Hc;
     [ pose proof Hc as Hc'; apply andb_true_iff in Hc' as [_ Hex];
       unfold_run; rewrite Hex, Hrm; unfold_run;
       intros [= <- _]; cbn [w_mem w_fs]; intros [= ->] _;
       intros [Hq _]%list_elem_of_filter; by apply Hq
     | unfold_run; intros [= <- _]; cbn [w_mem w_fs]; intros [= ->] Hne;
       apply andb_false_iff in Hc as [Hc | Hc];
       [ apply negb_false_iff, String.eqb_eq in Hc; by destruct Hne
       | unfold os_path_exists in Hc; by apply bool_decide_eq_false in Hc ] ]).
Qed.

(** On every run of the web runner, [os.remove] is only ever called in a
    run that has stored [Completed]: a run whose conversion fails never
    removes its scratch file. *)
Lemma web_removal_only_after_completion (E : env) (id name : string)
    (fs : filesystem) (source_type source_data fmt : string) (sr br : pyval) :
  let w := App.run_job E id name fs source_type source_data fmt sr br in
  removed_paths (w_events w) = []
  \/ reaches_completed (map App.job_status (w_hist w)) = true.
Proof.
  cbv zeta. run_cases E; cbn [map]; job_fields;
    first [ right; reflexivity
          | left; reflexivity
          | left; match goal with H : removed_paths _ = _ |- _ =>
                    rewrite H; reflexivity end ].
Qed.

(* ===================================================================== *)
(** ** The configuration accessors *)
(* ===================================================================== *)

Lemma split_on_nonempty (c : ascii) (s : string) : split_on c s <> [].
Proof.
  destruct s as [|a s]; cbn [split_on]; [done |].
  destruct (Ascii.eqb a c); [done |]. by destruct (split_on c s).
Qed.

Lemma split_on_char_free (c : ascii) (k : string) :
  char_free c k = true -> split_on c k = [k].
Proof.
  induction k as [|a k IH]; cbn [char_free split_on]; [done |].
  intros [Ha Hk]%andb_true_iff. apply negb_true_iff in Ha. rewrite Ha.
  by rewrite (IH Hk).
Qed.

Lemma split_on_app (c : ascii) (k rest : string) :
  char_free c k = true ->
  split_on c (k +:+ String c rest) = k :: split_on c rest.
Proof.
  induction k as [|a k IH]; cbn [char_free].
  - intros _. cbn [String.append split_on]. by rewrite Ascii.eqb_refl.
  - intros [Ha Hk]%andb_true_iff. apply negb_true_iff in Ha.
    change (String a k +:+ String c rest) with (String a (k +:+ String c rest)).
    cbn [split_on]. rewrite Ha. by rewrite (IH Hk).
Qed.

Lemma dict_get_set_eq {A} (k : string) (v : A) d :
  Config.dict_get k (Config.dict_set k v d) = Some v.
Proof.
  induction d as [|[k' v'] d IH]; cbn [Config.dict_set Config.dict_get].
  - by rewrite String.eqb_refl.
  - destruct (String.eqb k k') eqn:Hk; cbn [Config.dict_get].
    + by rewrite String.eqb_refl.
    + by rewrite Hk.
Qed.


Lemma cfg_setitem_get config k v config' :
  Config.cfg_setitem config k v = Ok config' -> Config.cfg_get config' k = Ok v.
Proof.
  destruct config as [[]| |d]; cbn; intros H; try discriminate H.
  injection H as <-. cbn. by rewrite dict_get_set_eq.
Qed.


Lemma set_walk_cons2 k k2 ks v config :
  Config.set_walk (k :: k2 :: ks) v config
  = match Config.cfg_getitem config k with
    | Ok sub =>
        match Config.set_walk (k2 :: ks) v sub with
        | Ok sub' => Config.cfg_setitem config k sub'
        | Raise e => Raise e
        end
    | Raise e => Raise e
    end.
Proof. reflexivity. Qed.

Lemma set_walk_get_walk keys v : forall config config',
  keys <> [] ->
  Config.set_walk keys v config = Ok config' ->
  Config.get_walk keys config' = Ok v.
Proof.
  induction keys as [|k ks IH]; intros config config' Hne H; [done |].
  destruct ks as [|k2 ks].
  - cbn in H. cbn [Config.get_walk].
    by rewrite (cfg_setitem_get _ _ _ _ H).
  - rewrite set_walk_cons2 in H.
    destruct (Config.cfg_getitem config k) as [sub|e]; [| discriminate].
    destruct (Config.set_walk (k2 :: ks) v sub) as [sub'|e] eqn:Hs;
      [| discriminate].
    cbn [Config.get_walk]. rewrite (cfg_setitem_get _ _ _ _ H).
    by apply (IH sub sub').
Qed.


(** [update_config] followed by [get_config] on the same key gives back
    the value that was stored; the key has to be non-empty, because
    [get_config] answers an empty key with the whole configuration. *)
Theorem update_config_then_get_config (CONFIG CONFIG' : Config.cfg)
    (key : string) (value : Config.cfg) :
  key <> "" ->
  Config.update_config CONFIG key value = Ok CONFIG' ->
  Config.get_config CONFIG' (Some key) = Ok value.
Proof.
  intros Hkey H. unfold Config.get_config.
  apply String.eqb_neq in Hkey. rewrite Hkey. cbn [negb].
  apply (set_walk_get_walk _ _ CONFIG); [apply split_on_nonempty | exact H].
Qed.

Lemma update_config_then_get_config_witness :
  "server.port" <> ""
  /\ Config.get_config
       (Config.CDict
          [("server", Config.CDict [("host", Config.CVal (PyStr "0.0.0.0"));
                                    ("port", Config.CVal (PyInt 8080))])])
       (Some "server.port")
     = Ok (Config.CVal (PyInt 8080)).
Proof.
  split; [done |].
  apply (update_config_then_get_config
           (Config.CDict
              [("server", Config.CDict [("host", Config.CVal (PyStr "0.0.0.0"));
                                        ("port", Config.CVal (PyInt 5000))])])
           _ "server.port" (Config.CVal (PyInt 8080))); [done | reflexivity].
Defined.





(** The [get_config] that [app.py] falls back on answers like the one of
    [config.py] for every key without a dot (and for no key at all). *)
Theorem fallback_get_config_agrees (CONFIG : Config.cfg) (k : string) :
  char_free "." k = true ->
  Config.fallback_get_config CONFIG (Some k) = Config.get_config CONFIG (Some k)
  /\ Config.fallback_get_config CONFIG None = Config.get_config CONFIG None.
Proof.
  intros Hfree. split; [| reflexivity].
  unfold Config.fallback_get_config, Config.get_config.
  destruct (negb (String.eqb k "")); [| reflexivity].
  rewrite (split_on_char_free _ _ Hfree). cbn [Config.get_walk].
  by destruct (Config.cfg_get CONFIG k).
Qed.

Lemma fallback_get_config_agrees_witness :
  char_free "." "server" = true
  /\ Config.fallback_get_config
       (Config.CDict [("server", Config.CDict [("port", Config.CVal (PyInt 5000))])])
       (Some "server")
     = Config.get_config
         (Config.CDict [("server", Config.CDict [("port", Config.CVal (PyInt 5000))])])
         (Some "server").
Proof.
  split; [reflexivity |].
  exact (proj1 (fallback_get_config_agrees _ "server" eq_refl)).
Defined.

(* ===================================================================== *)
(** ** Submission *)
(* ===================================================================== *)

Section SubmitFacts.
Variable uuid4 : nat -> string.
Variables (output_format : string) (sample_rate bitrate : pyval).



End SubmitFacts.



(** Every thread that [convert] has started works on a registered job,
    whatever the request looks like and even when the request fails
    half-way: the runner never finds its job missing. *)
Theorem convert_threads_have_jobs (uuid4 : nat -> string)
    (data : Submit.convert_data) (s : Submit.server) :
  (forall t, t ∈ Submit.started s ->
     is_Some (Submit.conversion_jobs s !! Submit.ta_job_id t)) ->
  forall t, t ∈ Submit.started (fst (Submit.convert uuid4 data s)) ->
    is_Some (Submit.conversion_jobs (fst (Submit.convert uuid4 data s))
               !! Submit.ta_job_id t).
Proof.
  set (inv := fun s : Submit.server =>
    forall t, t ∈ Submit.started s ->
      is_Some (Submit.conversion_jobs s !! Submit.ta_job_id t)).
  assert (Hsrc : forall fmt sr br src s0, inv s0 ->
    inv (fst (Submit.convert_source uuid4 fmt sr br src s0))).
  { intros fmt sr br [[t|] name url path] [jobs st n] Hinv;
      unfold Submit.convert_source, Submit.draw_uuid, Submit.source_getitem;
      cbn; [| exact Hinv].
    assert (Hgrow : forall x, x ∈ st ->
      is_Some (<[uuid4 n := App.new_job (uuid4 n) (default "Unknown" name)]>
                 jobs !! Submit.ta_job_id x)).
    { intros x Hx. destruct (decide (uuid4 n = Submit.ta_job_id x)) as [<-|].
      - rewrite lookup_insert_eq. by eexists.
      - rewrite lookup_insert_ne by done. by apply Hinv. }
    destruct (String.eqb t "youtube"); [destruct url | destruct path]; cbn;
      intros x Hx; cbn [Submit.started Submit.conversion_jobs] in *;
      try (by apply Hgrow);
      (apply elem_of_app in Hx as [Hx | Hx%list_elem_of_singleton];
       [by apply Hgrow | subst x; cbn; rewrite lookup_insert_eq; by eexists]). }
  assert (Hall : forall fmt sr br sources s0, inv s0 ->
    inv (fst (Submit.convert_sources uuid4 fmt sr br sources s0))).
  { intros fmt sr br sources. induction sources as [|src rest IH];
      intros s0 Hinv; [exact Hinv |].
    cbn [Submit.convert_sources]. unfold bind at 1.
    specialize (Hsrc fmt sr br src s0 Hinv).
    destruct (Submit.convert_source uuid4 fmt sr br src s0) as [s1 [id|e]];
      cbn [fst] in *; [| exact Hsrc].
    unfold bind at 1. specialize (IH s1 Hsrc).
    destruct (Submit.convert_sources uuid4 fmt sr br rest s1) as [s2 [ids|e]];
      cbn [fst] in *; exact IH. }
  intros Hinv. fold (inv (fst (Submit.convert uuid4 data s))).
  unfold Submit.convert.
  destruct (default [] (Submit.cd_sources data)) as [|src rest] eqn:Hs;
    [exact Hinv |].
  unfold bind.
  specialize (Hall (default "ogg" (Submit.cd_format data))
                (default PyNone (Submit.cd_sample_rate data))
                (default PyNone (Submit.cd_bitrate data)) (src :: rest) s Hinv).
  destruct (Submit.convert_sources _ _ _ _ _ s) as [s2 [ids|e]];
    cbn [fst ret] in *; exact Hall.
Qed.

Lemma convert_threads_have_jobs_witness :
  is_Some
    (Submit.conversion_jobs
       (fst (Submit.convert (fun n => pretty n)
               (Submit.ConvertData None None None
                  (Some [Submit.Source (Some "file") (Some "a.wav") None
                           (Some "uploads/a.wav")]))
               (Submit.Server ∅ [] 0)))
     !! "0").
Proof.
  apply (convert_threads_have_jobs (fun n => pretty n)
           (Submit.ConvertData None None None
              (Some [Submit.Source (Some "file") (Some "a.wav") None
                       (Some "uploads/a.wav")]))
           (Submit.Server ∅ [] 0)
           ltac:(intros t Ht; by apply elem_of_nil in Ht)
           (Submit.ThreadArgs "0" "file" "uploads/a.wav" "ogg" PyNone PyNone)).
  vm_compute. apply list_elem_of_singleton. reflexivity.
Defined.

(** A YouTube source without ['url'] leaves a queued job that no thread
    works on, and a source without ['type'] costs an identifier and
    leaves nothing; either way the request fails with the [KeyError] and
    the sources after it are not looked at.  A request without sources is
    answered with 400 and changes nothing. *)
Theorem convert_malformed_source (uuid4 : nat -> string)
    (fmt : option string) (sr br : option pyval)
    (name url path : option string) (rest : list Submit.source)
    (s : Submit.server) :
  let c := Submit.uuids_drawn s in
  Submit.convert uuid4
    (Submit.ConvertData fmt sr br
       (Some (Submit.Source (Some "youtube") name None path :: rest))) s
  = (Submit.Server
       (<[ uuid4 c := App.new_job (uuid4 c) (default "Unknown" name) ]>
          (Submit.conversion_jobs s))
       (Submit.started s) (S c),
     Raise (Exn "KeyError" "'url'"))
  /\ Submit.convert uuid4
       (Submit.ConvertData fmt sr br
          (Some (Submit.Source None name url path :: rest))) s
     = (Submit.Server (Submit.conversion_jobs s) (Submit.started s) (S c),
        Raise (Exn "KeyError" "'type'"))
  /\ Submit.convert uuid4 (Submit.ConvertData fmt sr br (Some [])) s
     = (s, Ok (Submit.ConvertError "No sources provided" 400))
  /\ Submit.convert uuid4 (Submit.ConvertData fmt sr br None) s
     = (s, Ok (Submit.ConvertError "No sources provided" 400)).
Proof. repeat split. Qed.

(* ===================================================================== *)
(** ** The retention sweep *)
(* ===================================================================== *)

Lemma for_each_keeps {S A} (R : S -> S -> Prop) (l : list A)
    (body : A -> M S unit) :
  (forall s, R s s) -> (forall a b c, R a b -> R b c -> R a c) ->
  (forall x, x ∈ l -> forall s, R s (fst (body x s))) ->
  forall s, R s (fst (Sweeper.for_each l body s)).
Proof.
  intros Hrefl Htrans. induction l as [|x l IH]; intros Hbody s.
  - apply Hrefl.
  - cbn [Sweeper.for_each]. unfold bind.
    assert (Hx := Hbody x ltac:(apply elem_of_cons; by left) s).
    destruct (body x s) as [s1 [[]|e]]; cbn [fst] in *; [| exact Hx].
    apply (Htrans _ s1); [exact Hx |].
    apply IH. intros y Hy. apply Hbody. apply elem_of_cons. by right.
Qed.

Lemma for_each_ok {S A} (l : list A) (body : A -> M S unit) :
  (forall x, x ∈ l -> forall s, snd (body x s) = Ok tt) ->
  forall s, snd (Sweeper.for_each l body s) = Ok tt.
Proof.
  induction l as [|x l IH]; intros Hbody s; [reflexivity |].
  cbn [Sweeper.for_each]. unfold bind.
  assert (Hx := Hbody x ltac:(apply elem_of_cons; by left) s).
  destruct (body x s) as [s1 r]; cbn [snd] in Hx. subst r.
  apply IH. intros y Hy. apply Hbody. apply elem_of_cons. by right.
Qed.

Lemma for_each_preserves {S A} (Q : S -> Prop) (l : list A)
    (body : A -> M S unit) :
  (forall y, y ∈ l -> forall s, Q s -> Q (fst (body y s))) ->
  forall s, Q s -> Q (fst (Sweeper.for_each l body s)).
Proof.
  induction l as [|y l IH]; intros Hkeep s Hq; [exact Hq |].
  cbn [Sweeper.for_each]. unfold bind.
  assert (Hy := Hkeep y ltac:(apply elem_of_cons; by left) s Hq).
  destruct (body y s) as [s1 [[]|e]]; cbn [fst] in *; [| exact Hy].
  apply IH; [| exact Hy].
  intros z Hz. apply Hkeep. apply elem_of_cons. by right.
Qed.

Lemma for_each_reaches {S A} (Q : S -> Prop) (l : list A)
    (body : A -> M S unit) (x : A) :
  x ∈ l ->
  (forall y, y ∈ l -> forall s, snd (body y s) = Ok tt) ->
  (forall s, Q (fst (body x s))) ->
  (forall y, y ∈ l -> forall s, Q s -> Q (fst (body y s))) ->
  forall s, Q (fst (Sweeper.for_each l body s)).
Proof.
  induction l as [|y l IH]; intros Hx Hok Hhit Hkeep s.
  - by apply elem_of_nil in Hx.
  - cbn [Sweeper.for_each]. unfold bind.
    assert (Hy := Hok y ltac:(apply elem_of_cons; by left) s).
    destruct (body y s) as [s1 r] eqn:Hb; cbn [snd] in Hy. subst r.
    apply elem_of_cons in Hx as [-> | Hx].
    + apply for_each_preserves.
      * intros z Hz. apply Hkeep. apply elem_of_cons. by right.
      * specialize (Hhit s). by rewrite Hb in Hhit.
    + apply IH; [exact Hx | | exact Hhit |].
      * intros z Hz. apply Hok. apply elem_of_cons. by right.
      * intros z Hz. apply Hkeep. apply elem_of_cons. by right.
Qed.

Lemma managed_join (folder name : string) :
  folder ∈ Sweeper.managed_folders ->
  str_in "/" name = false ->
  OsPath.join folder "" = folder +:+ "/"
  /\ OsPath.join folder name = (folder +:+ "/") +:+ name.
Proof.
  intros Hf Hname.
  assert (startswith name "/" = false) as Hs.
  { unfold startswith. destruct name as [|c name]; [done |].
    cbn [str_in] in Hname. by apply orb_false_iff in Hname as [-> _]. }
  unfold Sweeper.managed_folders in Hf.
  repeat (apply elem_of_cons in Hf as [-> | Hf];
          [unfold OsPath.join; rewrite Hs; split; reflexivity |]).
  by apply elem_of_nil in Hf.
Qed.

Lemma listing_directly_under (folder name : string) (fs : filesystem) :
  folder ∈ Sweeper.managed_folders ->
  name ∈ os_listdir folder fs ->
  OsPath.join folder name ∈ fs
  /\ directly_under folder (OsPath.join folder name) = true.
Proof.
  intros Hf Hin. unfold os_listdir in Hin.
  apply list_elem_of_omap in Hin as (p & Hp & Hname).
  destruct (strip_prefix (OsPath.join folder "") p) as [n|] eqn:Hstrip;
    [| discriminate].
  destruct (str_in "/" n || String.eqb n "") eqn:Hc; [discriminate |].
  injection Hname as ->.
  assert (Hslash : str_in "/" name = false)
    by by apply orb_false_iff in Hc as [? _].
  destruct (managed_join folder name Hf Hslash) as [Hj0 Hj].
  assert (OsPath.join folder name = p) as Hjp.
  { rewrite Hj. apply strip_prefix_Some in Hstrip. by rewrite Hj0 in Hstrip. }
  rewrite Hjp. split; [done |].
  unfold directly_under. by rewrite Hstrip, Hc.
Qed.

Lemma directly_under_listed (folder p : string) (fs : filesystem) :
  folder ∈ Sweeper.managed_folders ->
  p ∈ fs -> directly_under folder p = true ->
  exists name, name ∈ os_listdir folder fs /\ OsPath.join folder name = p.
Proof.
  intros Hf Hp Hd. unfold directly_under in Hd.
  destruct (strip_prefix (OsPath.join folder "") p) as [n|] eqn:Hstrip;
    [| discriminate].
  apply negb_true_iff in Hd. exists n. split.
  - unfold os_listdir. apply list_elem_of_omap. exists p. split; [done |].
    by rewrite Hstrip, Hd.
  - assert (Hslash : str_in "/" n = false)
      by by apply orb_false_iff in Hd as [? _].
    destruct (managed_join folder n Hf Hslash) as [Hj0 Hj].
    rewrite Hj. apply strip_prefix_Some in Hstrip. by rewrite Hj0 in Hstrip.
Qed.

Section SweepFacts.
Context {J : Type}.
Variable E : env.
Variable K : Sweeper.clock.

Lemma swept_from_refl (w : world J) : swept_from K w w.
Proof. split; [done |]. split; [done |]. intros p Hp Hn. by destruct Hn. Qed.

Lemma swept_from_trans (a b c : world J) :
  swept_from K a b -> swept_from K b c -> swept_from K a c.
Proof.
  intros (Hm1 & Hsub1 & Hrm1) (Hm2 & Hsub2 & Hrm2).
  split; [congruence |]. split; [auto |].
  intros p Hp Hn. destruct (decide (p ∈ w_fs b)); [by apply Hrm2 | by apply Hrm1].
Qed.

(** The three ways one file's turn can end. *)
Lemma sweep_file_cases (folder file : string) (w : world J) :
  let p := OsPath.join folder file in
  (fst (Sweeper.sweep_file E K folder file w) = w
   /\ (forall t, Sweeper.getmtime K p = Ok t ->
         Sweeper.is_expired t (Sweeper.time_time K p) = false))
  \/ (expired K p
      /\ fst (Sweeper.sweep_file E K folder file w)
         = World (w_mem w) (w_fs w) (w_events w ++ [EvRemove p]) (w_hist w)
      /\ (p ∉ w_fs w \/ is_Some (os_remove_error E p (w_fs w))))
  \/ (expired K p
      /\ p ∈ w_fs w /\ os_remove_error E p (w_fs w) = None
      /\ fst (Sweeper.sweep_file E K folder file w)
         = World (w_mem w) (filter (fun q => q <> p) (w_fs w))
                 (w_events w ++ [EvRemove p]) (w_hist w)).
Proof.
  cbv zeta. unfold Sweeper.sweep_file, expired. unfold_run.
  destruct (Sweeper.getmtime K (OsPath.join folder file)) as [t|e] eqn:Hm.
  2:{ left. split; [by destruct w | discriminate]. }
  destruct (Sweeper.is_expired t _) eqn:Hexp.
  2:{ left. split; [by destruct w | by intros ? [= <-]]. }
  unfold os_path_exists.
  destruct (decide (OsPath.join folder file ∈ w_fs w)) as [Hin | Hout].
  - rewrite (bool_decide_eq_true_2 _ Hin).
    destruct (os_remove_error E _ _) as [e|] eqn:Hrm.
    + right; left. split; [by exists t |]. split; [reflexivity |].
      right. by eexists.
    + right; right. split; [by exists t |]. repeat split; done.
  - rewrite (bool_decide_eq_false_2 _ Hout).
    right; left. split; [by exists t |]. split; [reflexivity |]. by left.
Qed.

Lemma sweep_file_swept (folder file : string) (w : world J) :
  folder ∈ Sweeper.managed_folders ->
  directly_under folder (OsPath.join folder file) = true ->
  swept_from K w (fst (Sweeper.sweep_file E K folder file w)).
Proof.
  intros Hf Hd.
  destruct (sweep_file_cases folder file w)
    as [[-> _] | [(Hexp & -> & _) | (Hexp & Hin & Hrm & ->)]].
  - apply swept_from_refl.
  - split; [done |]. split; [done |]. intros p Hp Hn. by destruct Hn.
  - split; [done |]. cbn [w_fs]. split.
    + intros p Hp%list_elem_of_filter. by destruct Hp.
    + intros p Hp Hn.
      destruct (decide (p = OsPath.join folder file)) as [-> | Hne].
      * split; [by exists folder | done].
      * destruct Hn. apply list_elem_of_filter. by split.
Qed.

Lemma sweep_file_ok (folder file : string) (w : world J) :
  (forall p, exists t, Sweeper.getmtime K p = Ok t) ->
  snd (Sweeper.sweep_file E K folder file w) = Ok tt.
Proof.
  intros Hmt. unfold Sweeper.sweep_file. unfold_run.
  destruct (Hmt (OsPath.join folder file)) as [t ->].
  destruct (Sweeper.is_expired t _); [| reflexivity].
  destruct (os_path_exists _ _); [| reflexivity].
  by destruct (os_remove_error E _ _).
Qed.

Lemma sweep_folder_swept (folder : string) (w : world J) :
  folder ∈ Sweeper.managed_folders ->
  swept_from K w (fst (Sweeper.sweep_folder E K folder w)).
Proof.
  intros Hf. unfold Sweeper.sweep_folder, bind, gets.
  apply for_each_keeps; [apply swept_from_refl | apply swept_from_trans |].
  intros file Hfile s. apply sweep_file_swept; [done |].
  by apply (listing_directly_under folder file (w_fs w)).
Qed.

Lemma sweep_folder_ok (folder : string) (w : world J) :
  (forall p, exists t, Sweeper.getmtime K p = Ok t) ->
  snd (Sweeper.sweep_folder E K folder w) = Ok tt.
Proof.
  intros Hmt. unfold Sweeper.sweep_folder, bind, gets.
  apply for_each_ok. intros file _ s. by apply sweep_file_ok.
Qed.

Lemma sweep_folder_removes (folder p : string) (w : world J) :
  (forall q, exists t, Sweeper.getmtime K q = Ok t) ->
  (forall q f, os_remove_error E q f = None) ->
  folder ∈ Sweeper.managed_folders ->
  directly_under folder p = true -> expired K p ->
  p ∉ w_fs (fst (Sweeper.sweep_folder E K folder w)).
Proof.
  intros Hmt Hrm Hf Hd Hexp.
  assert (Hkeep : forall file, file ∈ os_listdir folder (w_fs w) ->
            forall s : world J, p ∉ w_fs s ->
            p ∉ w_fs (fst (Sweeper.sweep_file E K folder file s))).
  { intros file Hfile s Hs Hin.
    destruct (sweep_file_swept folder file s Hf) as (_ & Hsub & _).
    - by apply (listing_directly_under folder file (w_fs w)).
    - by apply Hs, Hsub. }
  destruct (decide (p ∈ w_fs w)) as [Hin | Hout].
  - destruct (directly_under_listed folder p (w_fs w) Hf Hin Hd)
      as (name & Hname & Hjoin).
    unfold Sweeper.sweep_folder, bind, gets.
    apply (for_each_reaches (fun s : world J => p ∉ w_fs s) _ _ name);
      [done | | | done].
    + intros file _ s. by apply sweep_file_ok.
    + intros s.
      destruct (sweep_file_cases folder name s)
        as [[_ Hno] | [(_ & -> & Hwhy) | (_ & _ & _ & ->)]];
        rewrite ?Hjoin in *.
      * destruct Hexp as (t & Ht & Hte). by rewrite (Hno t Ht) in Hte.
      * cbn [w_fs]. destruct Hwhy as [Hnot | [e He]]; [done |].
        by rewrite Hrm in He.
      * cbn [w_fs]. intros [Hq _]%list_elem_of_filter. by apply Hq.
  - unfold Sweeper.sweep_folder, bind, gets.
    by apply (for_each_preserves (fun s : world J => p ∉ w_fs s)).
Qed.

(** The sweep only ever deletes files that lie directly in [temp],
    [uploads] or [outputs] and that it found older than a day; it
    creates nothing and leaves the rest of the run's state alone. *)
Theorem sweep_only_removes_expired (w : world J) :
  swept_from K w (fst (Sweeper.cleanup_pass E K w)).
Proof.
  unfold Sweeper.cleanup_pass.
  apply for_each_keeps; [apply swept_from_refl | apply swept_from_trans |].
  intros folder Hf s. by apply sweep_folder_swept.
Qed.

(** A failing [os.remove] never stops the sweep: as long as the
    modification times can be read, a pass runs to its end. *)
Theorem sweep_survives_remove_errors (w : world J) :
  (forall p, exists t, Sweeper.getmtime K p = Ok t) ->
  snd (Sweeper.cleanup_pass E K w) = Ok tt.
Proof.
  intros Hmt. unfold Sweeper.cleanup_pass.
  apply for_each_ok. intros folder _ s. by apply sweep_folder_ok.
Qed.

(** When the modification times can be read and no removal fails, a pass
    leaves no file behind that lies directly in a managed folder and is
    older than a day. *)
Theorem sweep_removes_all_expired (w : world J) (folder p : string) :
  (forall q, exists t, Sweeper.getmtime K q = Ok t) ->
  (forall q f, os_remove_error E q f = None) ->
  folder ∈ Sweeper.managed_folders ->
  directly_under folder p = true -> expired K p ->
  p ∉ w_fs (fst (Sweeper.cleanup_pass E K w)).
Proof.
  intros Hmt Hrm Hf Hd Hexp. unfold Sweeper.cleanup_pass.
  apply (for_each_reaches (fun s : world J => p ∉ w_fs s) _ _ folder);
    [done | | |].
  - intros f _ s. by apply sweep_folder_ok.
  - intros s. by apply sweep_folder_removes.
  - intros f Hfm s Hs Hin.
    destruct (sweep_folder_swept f s Hfm) as (_ & Hsub & _).
    by apply Hs, Hsub.
Qed.

(** The modification time is read outside the [try]: when
    [os.path.getmtime] raises on the first file of [temp], the pass ends
    there with that exception, and nothing has been deleted. *)
Theorem sweep_stops_on_getmtime_error (w : world J) (name : string)
    (rest : list string) (e : exn) :
  os_listdir "temp" (w_fs w) = name :: rest ->
  Sweeper.getmtime K (OsPath.join "temp" name) = Raise e ->
  Sweeper.cleanup_pass E K w = (w, Raise e).
Proof.
  intros Hl Hm. unfold Sweeper.cleanup_pass, Sweeper.managed_folders.
  cbn [Sweeper.for_each]. unfold bind at 1.
  unfold Sweeper.sweep_folder at 1. unfold bind at 1. unfold gets at 1.
  rewrite Hl. cbn [Sweeper.for_each]. unfold bind at 1.
  unfold Sweeper.sweep_file at 1. unfold bind at 1, lift_result at 1.
  rewrite Hm. reflexivity.
Qed.

End SweepFacts.

Lemma sweep_survives_remove_errors_witness :
  snd (Sweeper.cleanup_pass
         (Env (Sample.extractor_writing_nothing "t") Sample.encoder_ok
              Sample.remove_denied)
         late_clock (World tt ["temp/a.mp3"; "outputs/b.ogg"] [] []))
  = Ok tt.
Proof.
  apply (sweep_survives_remove_errors
           (Env (Sample.extractor_writing_nothing "t") Sample.encoder_ok
                Sample.remove_denied) late_clock).
  intros p. by eexists.
Defined.

Lemma sweep_removes_all_expired_witness :
  directly_under "outputs" "outputs/b.ogg" = true
  /\ "outputs/b.ogg"
     ∉ w_fs (fst (Sweeper.cleanup_pass Sample.env_all_ok late_clock
                    (World tt ["temp/a.mp3"; "outputs/b.ogg"; "notes.txt"]
                       [] []))).
Proof.
  split; [reflexivity |].
  apply (sweep_removes_all_expired Sample.env_all_ok late_clock _ "outputs").
  - intros p. by eexists.
  - reflexivity.
  - apply elem_of_cons; right. apply elem_of_cons; right.
    apply elem_of_cons; by left.
  - reflexivity.
  - eexists. split; [reflexivity | by vm_compute].
Defined.

Lemma sweep_stops_on_getmtime_error_witness :
  os_listdir "temp" ["temp/a.mp3"; "outputs/b.ogg"] = ["a.mp3"]
  /\ fst (Sweeper.cleanup_pass Sample.env_all_ok broken_clock
            (World tt ["temp/a.mp3"; "outputs/b.ogg"] [] []))
     = World tt ["temp/a.mp3"; "outputs/b.ogg"] [] [].
Proof.
  split; [reflexivity |].
  exact (f_equal fst
    (sweep_stops_on_getmtime_error Sample.env_all_ok broken_clock
       (World tt ["temp/a.mp3"; "outputs/b.ogg"] [] []) "a.mp3" [] _
       eq_refl eq_refl)).
Defined.

(* ===================================================================== *)
(** ** Outcomes of the web runner *)
(* ===================================================================== *)

Lemma download_youtube_audio_run E url id (w : world App.job) :
  let tmpl := OsPath.join "temp" (id +:+ "_youtube.%(ext)s") in
  let o := ydl_extract_info E url tmpl (w_fs w) in
  App.download_youtube_audio E url id w
  = (World (w_mem w) (ex_fs o) (w_events w ++ [EvDownload url tmpl]) (w_hist w),
     match ex_result o with
     | Ok InfoNone =>
         Raise (Exn "Exception"
                    ("YouTube download failed: "
                     +:+ "'NoneType' object has no attribute 'get'"))
     | Ok (InfoDict t) =>
         Ok (match List.find (fun file => startswith file (id +:+ "_youtube"))
                             (os_listdir "temp" (ex_fs o)) with
             | Some file => Some (OsPath.join "temp" file, default "Unknown" t)
             | None => None
             end)
     | Raise e =>
         Raise (Exn "Exception" ("YouTube download failed: " +:+ exn_str e))
     end).
Proof.
  cbv zeta. unfold App.download_youtube_audio, try_except.
  unfold bind at 1. rewrite extract_info_no_hook.
  destruct (ex_result _) as [[|[t|]]|e]; reflexivity.
Qed.

Lemma app_convert_audio_run E input fmt fi sr br jid (w : world App.job)
    fs' r :
  AUDIO_FORMATS !! fmt = Some fi ->
  ffmpeg_run E input (App.output_path_of input fi jid)
    (audio_params fi sr br) (w_fs w) = (fs', r) ->
  App.convert_audio E input fmt sr br jid w
  = (World (w_mem w) fs'
       (w_events w ++ [EvEncode input (App.output_path_of input fi jid)
                                (audio_params fi sr br)])
       (w_hist w),
     match r with
     | RunOk => Ok (App.output_path_of input fi jid)
     | RunFFmpegError stderr =>
         Raise (Exn "Exception"
                    ("Conversion failed: "
                     +:+ stderr_or_str (ffmpeg_exn stderr)))
     | RunOtherError e =>
         if String.eqb (exn_class e) FFMPEG_ERROR
         then Raise (Exn "Exception" ("Conversion failed: " +:+ stderr_or_str e))
         else Raise e
     end).
Proof.
  intros Hfmt Hrun. unfold App.convert_audio. rewrite Hfmt. unfold_run.
  rewrite Hrun. destruct r as [|stderr|e]; unfold_run; try reflexivity.
  by destruct (String.eqb _ _).
Qed.

(** A job on an uploaded file whose format is in the catalog and whose
    encoder run succeeds ends completed at 100 percent with the output
    path [outputs/<job id>_<stem>.<ext>]; the encoder call is the only
    thing the runner asks of its collaborators: nothing is downloaded and
    the uploaded file is not removed. *)
Theorem file_job_completes (E : env) (id name : string) (fs fs' : filesystem)
    (source_type path fmt : string) (fi : format_info) (sr br : pyval) :
  source_type <> "youtube" ->
  AUDIO_FORMATS !! fmt = Some fi ->
  ffmpeg_run E path (App.output_path_of path fi (Some id))
    (audio_params fi sr br) fs = (fs', RunOk) ->
  let w := App.run_job E id name fs source_type path fmt sr br in
  w_mem w = App.Job id App.Completed 100 name "Conversion completed!"
              (Some (App.output_path_of path fi (Some id))) None
  /\ w_fs w = fs'
  /\ w_events w = [EvEncode path (App.output_path_of path fi (Some id))
                            (audio_params fi sr br)].
Proof.
  intros Hst Hfmt Hrun. apply String.eqb_neq in Hst. cbv zeta.
  unfold App.run_job, App.process_conversion_job. rewrite Hst. unfold_run.
  rewrite (app_convert_audio_run E path fmt fi sr br (Some id)
             (World _ fs _ _) fs' RunOk Hfmt Hrun).
  unfold_run. job_fields. split; [| split]; reflexivity.
Qed.

Lemma file_job_completes_witness :
  AUDIO_FORMATS !! "ogg" = Some (FormatInfo "ogg" "libvorbis")
  /\ App.job_status
       (w_mem (App.run_job Sample.env_all_ok "j1" "a.wav" ["uploads/a.wav"]
                 "file" "uploads/a.wav" "ogg" (PyInt 32000) (PyStr "128k")))
     = App.Completed.
Proof.
  split; [reflexivity |].
  exact (f_equal App.job_status
    (proj1 (file_job_completes Sample.env_all_ok "j1" "a.wav" ["uploads/a.wav"]
       ["uploads/a.wav"; "outputs/j1_a.ogg"] "file" "uploads/a.wav" "ogg"
       (FormatInfo "ogg" "libvorbis") (PyInt 32000) (PyStr "128k")
       ltac:(discriminate) eq_refl eq_refl))).
Defined.



(** When the extractor raises, the YouTube job ends failed at 20 percent:
    the failure detail is the extractor's text behind "YouTube download
    failed: ", the display name is still the submitted one, and the
    encoder is not called. *)
Theorem youtube_download_failure (E : env) (id name url fmt : string)
    (fs : filesystem) (sr br : pyval) (e : exn) :
  let tmpl := OsPath.join "temp" (id +:+ "_youtube.%(ext)s") in
  ex_result (ydl_extract_info E url tmpl fs) = Raise e ->
  w_mem (App.run_job E id name fs "youtube" url fmt sr br)
  = App.Job id App.Failed 20 name
      ("Error: " +:+ "YouTube download failed: " +:+ exn_str e) None
      (Some ("YouTube download failed: " +:+ exn_str e))
  /\ w_events (App.run_job E id name fs "youtube" url fmt sr br)
     = [EvDownload url tmpl].
Proof.
  cbv zeta. intros He.
  unfold App.run_job, App.process_conversion_job.
  rewrite String.eqb_refl. unfold_run.
  rewrite download_youtube_audio_run. cbn [w_fs w_mem w_events w_hist].
  rewrite He. unfold_run. job_fields. split; reflexivity.
Qed.

Lemma youtube_download_failure_witness :
  w_events (App.run_job
              (Env (fun _ _ fs =>
                      ExtractOutcome [] fs
                        (Raise (Exn "DownloadError" "Video unavailable")))
                   Sample.encoder_ok Sample.remove_ok)
              "j1" "clip" [] "youtube" Sample.video "mp3" PyNone PyNone)
  = [EvDownload Sample.video (OsPath.join "temp" ("j1" +:+ "_youtube.%(ext)s"))].
Proof.
  exact (proj2 (youtube_download_failure
           (Env (fun _ _ fs =>
                   ExtractOutcome [] fs
                     (Raise (Exn "DownloadError" "Video unavailable")))
                Sample.encoder_ok Sample.remove_ok)
           "j1" "clip" Sample.video "mp3" [] PyNone PyNone
           (Exn "DownloadError" "Video unavailable") eq_refl)).
Defined.

(** A YouTube job whose download leaves a file for it in [temp], whose
    format is in the catalog and whose encoder run and scratch removal
    succeed ends completed at 100 percent, shown under the video's title
    (or "Unknown" when the extractor gave none), with the output path
    derived from the scratch file; the scratch file is gone afterwards. *)
Theorem youtube_job_completes (E : env) (id name url fmt : string)
    (fi : format_info) (fs fs' : filesystem) (sr br : pyval)
    (title : option string) (file : string) :
  let tmpl := OsPath.join "temp" (id +:+ "_youtube.%(ext)s") in
  let o := ydl_extract_info E url tmpl fs in
  let p := OsPath.join "temp" file in
  let out := App.output_path_of p fi (Some id) in
  ex_result o = Ok (InfoDict title) ->
  List.find (fun f => startswith f (id +:+ "_youtube"))
            (os_listdir "temp" (ex_fs o)) = Some file ->
  AUDIO_FORMATS !! fmt = Some fi ->
  ffmpeg_run E p out (audio_params fi sr br) (ex_fs o) = (fs', RunOk) ->
  os_remove_error E p fs' = None ->
  let w := App.run_job E id name fs "youtube" url fmt sr br in
  w_mem w = App.Job id App.Completed 100 (default "Unknown" title)
              "Conversion completed!" (Some out) None
  /\ w_fs w = filter (fun q => q <> p) fs'
  /\ (p ∉ w_fs w).
Proof.
  cbv zeta. intros Hres Hfind Hfmt Hrun Hrm.
  unfold App.run_job, App.process_conversion_job.
  rewrite String.eqb_refl. unfold_run.
  rewrite download_youtube_audio_run. cbn [w_fs w_mem w_events w_hist].
  rewrite Hres, Hfind. unfold_run.
  rewrite (app_convert_audio_run E _ fmt fi sr br (Some id)
             (World _ (ex_fs _) _ _) fs' RunOk Hfmt Hrun).
  unfold_run. job_fields. cbn [andb].
  destruct (os_path_exists _ fs') eqn:Hex; unfold_run; rewrite ?Hex, ?Hrm;
    unfold_run; job_fields.
  - split; [reflexivity |]. split; [reflexivity |].
    intros [Hne _]%list_elem_of_filter. by apply Hne.
  - apply bool_decide_eq_false_1 in Hex.
    assert (Hf : filter (fun q => q <> OsPath.join "temp" file) fs' = fs').
    { clear -Hex. unfold filesystem in *. induction fs' as [|q l IH]; [done |].
      apply not_elem_of_cons in Hex as [Hq Hl].
      rewrite filter_cons_True by congruence. by rewrite (IH Hl). }
    rewrite Hf. split; [reflexivity |]. split; [reflexivity | exact Hex].
Qed.

Lemma youtube_job_completes_witness :
  w_mem (Sample.web_run Sample.env_all_ok "ogg")
  = App.Job "j1" App.Completed 100 "Song" "Conversion completed!"
      (Some "outputs/j1_j1_youtube.ogg") None
  /\ (Sample.scratch ∉ w_fs (Sample.web_run Sample.env_all_ok "ogg")).
Proof.
  pose proof (youtube_job_completes Sample.env_all_ok "j1" "clip" Sample.video
                "ogg" (FormatInfo "ogg" "libvorbis") []
                ["temp/j1_youtube.mp3"; "outputs/j1_j1_youtube.ogg"]
                PyNone PyNone (Some "Song") "j1_youtube.mp3"
                eq_refl eq_refl eq_refl eq_refl eq_refl) as [Hm [_ Hp]].
  split; [exact Hm | exact Hp].
Defined.

(* ===================================================================== *)
(** ** The name a download is offered under *)
(* ===================================================================== *)

Lemma join_with_split_on (c : ascii) (s : string) :
  join_with (String c "") (split_on c s) = s.
Proof.
  induction s as [|a s IH]; [reflexivity |]. cbn [split_on].
  destruct (Ascii.eqb a c) eqn:Hac.
  - apply Ascii.eqb_eq in Hac as ->.
    pose proof (split_on_nonempty c s) as Hne.
    destruct (split_on c s) as [|w ws]; [done |].
    cbn [join_with] in *. by rewrite IH.
  - destruct (split_on c s) as [|w ws].
    + cbn [join_with] in *. by subst s.
    + destruct ws as [|w2 ws]; cbn [join_with] in *; by subst s.
Qed.

Lemma char_free_app (c : ascii) (a b : string) :
  char_free c (a +:+ b) = char_free c a && char_free c b.
Proof.
  induction a as [|x a IH]; [reflexivity |].
  change (String x a +:+ b) with (String x (a +:+ b)).
  cbn [char_free]. by rewrite IH, andb_assoc.
Qed.

Lemma char_free_rfind (c : ascii) (s : string) :
  char_free c s = true -> rfind c s = None.
Proof.
  induction s as [|a s IH]; [done |]. cbn [char_free rfind].
  intros [Ha Hs]%andb_true_iff. apply negb_true_iff in Ha.
  by rewrite (IH Hs), Ha.
Qed.

Lemma char_free_str_in (c : ascii) (s : string) :
  char_free c s = true -> str_in (String c "") s = false.
Proof.
  induction s as [|a s IH]; [done |]. cbn [char_free str_in String.prefix].
  intros [Ha Hs]%andb_true_iff. apply negb_true_iff in Ha.
  rewrite (IH Hs), orb_false_r.
  destruct (Ascii.ascii_dec c a) as [-> | Hne].
  - by rewrite Ascii.eqb_refl in Ha.
  - done.
Qed.

Lemma char_free_substring (c : ascii) (s : string) (i n : nat) :
  char_free c s = true -> char_free c (String.substring i n s) = true.
Proof.
  revert i n. induction s as [|a s IH]; intros i n Hs.
  - by destruct i, n.
  - cbn [char_free] in Hs. apply andb_true_iff in Hs as [Ha Hs].
    destruct i as [|i]; cbn [String.substring].
    + destruct n as [|n]; [done |]. cbn [char_free].
      by rewrite Ha, (IH 0%nat n Hs).
    + by apply IH.
Qed.

Lemma substring_whole (s : string) :
  String.substring 0 (String.length s) s = s.
Proof. induction s as [|a s IH]; [done |]. cbn. by rewrite IH. Qed.

Lemma split_on_pieces_free (c : ascii) (s x : string) :
  x ∈ split_on c s -> char_free c x = true.
Proof.
  revert x. induction s as [|a s IH]; intros x; cbn [split_on].
  - by intros ->%list_elem_of_singleton.
  - destruct (Ascii.eqb a c) eqn:Hac.
    + intros [-> | Hx]%elem_of_cons; [done | by apply IH].
    + pose proof (split_on_nonempty c s) as Hne.
      destruct (split_on c s) as [|w ws]; [done |].
      intros [-> | Hx]%elem_of_cons.
      * cbn [char_free]. rewrite Hac. cbn [negb andb].
        apply IH, elem_of_cons. by left.
      * apply IH, elem_of_cons. by right.
Qed.

Lemma last_elem_of {A} (l : list A) (d : A) :
  l <> [] -> List.last l d ∈ l.
Proof.
  induction l as [|x l IH]; [done |]. intros _.
  destruct l as [|y l]; [apply elem_of_cons; by left |].
  change (List.last (x :: y :: l) d) with (List.last (y :: l) d).
  apply elem_of_cons. right. by apply IH.
Qed.

Lemma name_no_slash (p : string) : char_free "/" (OsPath.name p) = true.
Proof.
  unfold OsPath.name, OsPath.parts.
  destruct (filter _ (split_on "/" p)) as [|x l] eqn:HF; [done |].
  assert (Hin : List.last (x :: l) "" ∈ x :: l) by by apply last_elem_of.
  assert (Hsub : forall y, y ∈ x :: l -> y ∈ split_on "/" p).
  { intros y Hy. rewrite <- HF in Hy.
    by apply list_elem_of_filter in Hy as [_ Hy]. }
  by apply (split_on_pieces_free "/" p), Hsub.
Qed.

Lemma stem_no_slash (p : string) : char_free "/" (OsPath.stem p) = true.
Proof.
  unfold OsPath.stem. pose proof (name_no_slash p) as Hn.
  destruct (rfind "." (OsPath.name p)) as [i|]; [| done].
  destruct (_ && _); [| done]. by apply char_free_substring.
Qed.

Lemma uuid_chars_free (c : ascii) (i : nat) (s : string) :
  App.is_hex c = false -> c <> "-"%char ->
  App.uuid_chars i s = true -> char_free c s = true.
Proof.
  intros Hhex Hdash. revert i.
  induction s as [|a s IH]; intros i; [done |].
  cbn [App.uuid_chars char_free]. intros [Ha Hs]%andb_true_iff.
  rewrite (IH _ Hs), andb_true_r. apply negb_true_iff.
  destruct (Ascii.eqb a c) eqn:Hac; [| done].
  apply Ascii.eqb_eq in Hac as ->.
  destruct (bool_decide _).
  - by apply Ascii.eqb_eq in Ha.
  - congruence.
Qed.

Lemma uuid_shaped_free (c : ascii) (s : string) :
  App.is_hex c = false -> c <> "-"%char ->
  App.uuid_shaped s = true -> char_free c s = true.
Proof.
  intros Hhex Hdash [_ Hc]%andb_true_iff. by apply (uuid_chars_free c 0 s).
Qed.

Lemma catalog_ext_no_slash (fmt : string) (fi : format_info) :
  AUDIO_FORMATS !! fmt = Some fi -> char_free "/" (fmt_ext fi) = true.
Proof.
  intros H%catalog_cases. unfold catalog_entries in H.
  repeat (apply elem_of_cons in H as [H | H]; [by injection H as _ -> |]).
  by apply elem_of_nil in H.
Qed.

Lemma basename_under (d n : string) :
  char_free "/" n = true -> OsPath.basename (d +:+ "/" +:+ n) = n.
Proof.
  intros Hn. unfold OsPath.basename.
  assert (Hr : rfind "/" (d +:+ "/" +:+ n) = Some (String.length d)).
  { induction d as [|a d IH].
    - cbn [String.append rfind]. by rewrite (char_free_rfind _ _ Hn).
    - change (String a d +:+ "/" +:+ n) with (String a (d +:+ "/" +:+ n)).
      cbn [rfind String.length]. by rewrite IH. }
  rewrite Hr. clear Hr.
  induction d as [|a d IH].
  - cbn [String.append String.length String.substring Nat.sub].
    rewrite Nat.sub_0_r. apply substring_whole.
  - change (String a d +:+ "/" +:+ n) with (String a (d +:+ "/" +:+ n)).
    cbn [String.length String.substring Nat.sub]. exact IH.
Qed.

Lemma strip_prefix_app (p r : string) : strip_prefix p (p +:+ r) = Some r.
Proof.
  induction p as [|a p IH]; [by destruct r |].
  change (String a p +:+ r) with (String a (p +:+ r)).
  cbn [strip_prefix]. by rewrite Ascii.eqb_refl.
Qed.

Lemma output_basename (input fmt id : string) (fi : format_info) :
  App.uuid_shaped id = true ->
  AUDIO_FORMATS !! fmt = Some fi ->
  OsPath.basename (App.output_path_of input fi (Some id))
  = id +:+ String "_" (OsPath.stem input +:+ "." +:+ fmt_ext fi).
Proof.
  intros Hid Hfmt. rewrite (app_output_path_shape _ _ _ Hid).
  change ("outputs/" +:+ id +:+ "_" +:+ OsPath.stem input +:+ "." +:+ fmt_ext fi)
    with ("outputs" +:+ "/"
          +:+ (id +:+ "_" +:+ OsPath.stem input +:+ "." +:+ fmt_ext fi)).
  rewrite basename_under; [reflexivity |].
  rewrite !char_free_app.
  rewrite (uuid_shaped_free "/" id), stem_no_slash by done.
  by rewrite (catalog_ext_no_slash _ _ Hfmt).
Qed.

Lemma clean_filename_drops_prefix (id rest : string) :
  char_free "_" id = true ->
  App.clean_filename (id +:+ String "_" rest) = rest.
Proof.
  intros Hid. unfold App.clean_filename. rewrite split_on_app by done.
  cbn [List.tl]. apply join_with_split_on.
Qed.

(** The download name is the output file's name without the job
    identifier: for a [uuid4] identifier and a format of the catalog,
    cutting the output path at its last slash and dropping what precedes
    the first underscore gives back [<stem>.<ext>], whatever underscores
    the stem itself has. *)
Theorem download_name_is_output_filename (input fmt id : string)
    (fi : format_info) :
  App.uuid_shaped id = true ->
  AUDIO_FORMATS !! fmt = Some fi ->
  App.clean_filename (OsPath.basename (App.output_path_of input fi (Some id)))
  = OsPath.stem input +:+ "." +:+ fmt_ext fi.
Proof.
  intros Hid Hfmt. rewrite (output_basename input fmt id fi Hid Hfmt).
  by apply clean_filename_drops_prefix, uuid_shaped_free.
Qed.

Lemma download_name_is_output_filename_witness :
  App.clean_filename
    (OsPath.basename
       (App.output_path_of "uploads/my_song.final.wav"
          (FormatInfo "ogg" "libvorbis")
          (Some "123e4567-e89b-42d3-a456-426614174000")))
  = "my_song.final.ogg".
Proof.
  exact (download_name_is_output_filename "uploads/my_song.final.wav" "ogg"
           "123e4567-e89b-42d3-a456-426614174000"
           (FormatInfo "ogg" "libvorbis") eq_refl eq_refl).
Defined.



(** Every output path of the web front end names an entry directly under
    [outputs], one of the folders the retention sweep scans: no input
    name can place an output elsewhere. *)
Theorem output_is_directly_under_outputs (input fmt id : string)
    (fi : format_info) :
  App.uuid_shaped id = true ->
  AUDIO_FORMATS !! fmt = Some fi ->
  directly_under "outputs" (App.output_path_of input fi (Some id)) = true
  /\ "outputs" ∈ Sweeper.managed_folders.
Proof.
  intros Hid Hfmt. split.
  - rewrite (app_output_path_shape _ _ _ Hid). unfold directly_under.
    change (OsPath.join "outputs" "") with "outputs/".
    change ("outputs/" +:+ id +:+ "_" +:+ OsPath.stem input +:+ "."
            +:+ fmt_ext fi)
      with ("outputs/" +:+ (id +:+ "_" +:+ OsPath.stem input +:+ "."
                            +:+ fmt_ext fi)).
    rewrite strip_prefix_app.
    rewrite char_free_str_in.
    + pose proof (uuid_shaped_length _ Hid) as Hlen.
      destruct id as [|c id]; [discriminate |]. reflexivity.
    + rewrite !char_free_app.
      rewrite (uuid_shaped_free "/" id), stem_no_slash by done.
      by rewrite (catalog_ext_no_slash _ _ Hfmt).
  - unfold Sweeper.managed_folders. set_solver.
Qed.

Lemma output_is_directly_under_outputs_witness :
  directly_under "outputs"
    (App.output_path_of "../../etc/passwd.wav" (FormatInfo "ogg" "libvorbis")
       (Some "123e4567-e89b-42d3-a456-426614174000")) = true.
Proof.
  exact (proj1 (output_is_directly_under_outputs "../../etc/passwd.wav" "ogg"
                  "123e4567-e89b-42d3-a456-426614174000"
                  (FormatInfo "ogg" "libvorbis") eq_refl eq_refl)).
Defined.

(* ===================================================================== *)
(** ** The batch converter's handling of its download *)
(* ===================================================================== *)

Lemma cli_download_youtube_run E url (w : world unit) :
  let tmpl := OsPath.join "downloads" "%(title)s.%(ext)s" in
  let o := ydl_extract_info E url tmpl (w_fs w) in
  Cli.download_youtube E url "downloads" w
  = (World (w_mem w) (ex_fs o) (w_events w ++ [EvDownload url tmpl]) (w_hist w),
     Ok (match ex_result o with
         | Ok (InfoDict t) =>
             match List.find (fun file => str_in (default "Unknown" t) file
                                          && endswith file ".mp3")
                             (os_listdir "downloads" (ex_fs o)) with
             | Some file => Some (OsPath.join "downloads" file)
             | None => None
             end
         | _ => None
         end)).
Proof.
  cbv zeta. unfold Cli.download_youtube, try_except.
  unfold bind at 1. rewrite extract_info_no_hook.
  destruct (ex_result _) as [[|[t|]]|e]; reflexivity.
Qed.


Lemma join_nonempty (a b : string) : a <> "" -> OsPath.join a b <> "".
Proof.
  intros Ha. unfold OsPath.join.
  destruct (startswith b "/") eqn:Hb; [by destruct b |].
  destruct a as [|c a]; [done |].
  by destruct (_ || _).
Qed.




(** With a format that is not in its table the batch converter has
    already downloaded: [ValueError] leaves [process_file] before the
    removal, so the downloaded file stays and nothing is encoded. *)
Theorem cli_unsupported_format_keeps_download (E : env)
    (item fmt dir file : string) (sr br : pyval)
    (w : world unit) (title : option string) :
  let tmpl := OsPath.join "downloads" "%(title)s.%(ext)s" in
  let o := ydl_extract_info E item tmpl (w_fs w) in
  Cli.is_youtube_url item = true ->
  ex_result o = Ok (InfoDict title) ->
  List.find (fun file => str_in (default "Unknown" title) file
                         && endswith file ".mp3")
            (os_listdir "downloads" (ex_fs o)) = Some file ->
  Cli.formats !! fmt = None ->
  Cli.process_file E item fmt sr br dir w
  = (World (w_mem w) (ex_fs o) (w_events w ++ [EvDownload item tmpl])
       (w_hist w),
     Raise (Exn "ValueError" ("Unsupported format: " +:+ fmt))).
Proof.
  cbv zeta. intros Hyt Hres Hfind Hfmt.
  unfold Cli.process_file. rewrite Hyt.
  unfold bind at 1. rewrite cli_download_youtube_run.
  rewrite Hres, Hfind.
  destruct (String.eqb (OsPath.join "downloads" file) "") eqn:Hempty.
  { apply String.eqb_eq in Hempty. by apply join_nonempty in Hempty. }
  unfold bind at 1. by rewrite cli_convert_audio_unsupported.
Qed.

Lemma cli_unsupported_format_keeps_download_witness :
  w_fs (fst (Cli.process_file
               (Env (Sample.extractor_writing "downloads/Song.mp3" "Song")
                    Sample.encoder_ok Sample.remove_ok)
               Sample.video "mp4" PyNone PyNone "converted"
               (World tt [] [] [])))
  = ["downloads/Song.mp3"].
Proof.
  exact (f_equal (fun x => w_fs (fst x))
           (cli_unsupported_format_keeps_download
              (Env (Sample.extractor_writing "downloads/Song.mp3" "Song")
                   Sample.encoder_ok Sample.remove_ok)
              Sample.video "mp4" "converted" "Song.mp3" PyNone PyNone
              (World tt [] [] []) (Some "Song")
              eq_refl eq_refl eq_refl eq_refl)).
Defined.

(** A download that fails is swallowed by the batch converter: when the
    extractor raises, hands back nothing, or leaves no matching [.mp3]
    under [downloads], [process_file] returns [None] without raising and
    without calling the encoder. *)
Theorem cli_failed_download_gives_none (E : env) (item fmt dir : string)
    (sr br : pyval) (w : world unit) :
  let tmpl := OsPath.join "downloads" "%(title)s.%(ext)s" in
  let o := ydl_extract_info E item tmpl (w_fs w) in
  Cli.is_youtube_url item = true ->
  match ex_result o with
  | Ok (InfoDict title) =>
      List.find (fun file => str_in (default "Unknown" title) file
                             && endswith file ".mp3")
                (os_listdir "downloads" (ex_fs o)) = None
  | _ => True
  end ->
  Cli.process_file E item fmt sr br dir w
  = (World (w_mem w) (ex_fs o) (w_events w ++ [EvDownload item tmpl])
       (w_hist w),
     Ok None).
Proof.
  cbv zeta. intros Hyt Hres.
  unfold Cli.process_file. rewrite Hyt.
  unfold bind at 1. rewrite cli_download_youtube_run.
  destruct (ex_result _) as [[|t]|e]; [reflexivity | | reflexivity].
  by rewrite Hres.
Qed.

Lemma cli_failed_download_gives_none_witness :
  snd (Cli.process_file
         (Env (fun _ _ fs =>
                 ExtractOutcome [] fs
                   (Raise (Exn "DownloadError" "Video unavailable")))
              Sample.encoder_ok Sample.remove_ok)
         Sample.video "ogg" PyNone PyNone "converted" (World tt [] [] []))
  = Ok None.
Proof.
  exact (f_equal snd
           (cli_failed_download_gives_none
              (Env (fun _ _ fs =>
                      ExtractOutcome [] fs
                        (Raise (Exn "DownloadError" "Video unavailable")))
                   Sample.encoder_ok Sample.remove_ok)
              Sample.video "ogg" "converted" PyNone PyNone
              (World tt [] [] []) eq_refl I)).
Defined.

(* ===================================================================== *)
(** ** The end-of-run signal of the desktop thread *)
(* ===================================================================== *)

Lemma finished_signals_app (a b : list event) :
  finished_signals (a ++ b) = finished_signals a ++ finished_signals b.
Proof. unfold finished_signals. apply omap_app. Qed.

Section Silent.
Context {J : Type}.
Variable E : env.

Lemma silent_ret {A} (a : A) : silent (J := J) (ret a).
Proof. by intros w. Qed.

Lemma silent_raise {A} (e : exn) : silent (J := J) (A := A) (raise e).
Proof. by intros w. Qed.

Lemma silent_lift_result {A} (r : result A) : silent (J := J) (lift_result r).
Proof. by intros w. Qed.

Lemma silent_gets {A} (f : world J -> A) : silent (gets f).
Proof. by intros w. Qed.

Lemma silent_store (f : J -> J) : silent (store f).
Proof. by intros w. Qed.

Lemma silent_set_fs (fs : filesystem) : silent (J := J) (set_fs fs).
Proof. by intros w. Qed.

Lemma silent_emit (ev : event) :
  finished_signals [ev] = [] -> silent (J := J) (emit ev).
Proof.
  intros Hev w. unfold emit, modify. cbn [fst w_events].
  by rewrite finished_signals_app, Hev, app_nil_r.
Qed.

Lemma silent_bind {A B} (m : M (world J) A) (k : A -> M (world J) B) :
  silent m -> (forall a, silent (k a)) -> silent (bind m k).
Proof.
  intros Hm Hk w. unfold bind. specialize (Hm w).
  destruct (m w) as [w' [a|e]]; cbn [fst] in *; [| done].
  by rewrite (Hk a w').
Qed.

Lemma silent_try_except {A} (m : M (world J) A) (h : exn -> M (world J) A) :
  silent m -> (forall e, silent (h e)) -> silent (try_except m h).
Proof.
  intros Hm Hh w. unfold try_except. specialize (Hm w).
  destruct (m w) as [w' [a|e]]; cbn [fst] in *; [done |].
  by rewrite (Hh e w').
Qed.

Lemma silent_try_except_class {A} cls (m : M (world J) A)
    (h : exn -> M (world J) A) :
  silent m -> (forall e, silent (h e)) -> silent (try_except_class cls m h).
Proof.
  intros Hm Hh w. unfold try_except_class. specialize (Hm w).
  destruct (m w) as [w' [a|e]]; cbn [fst] in *; [done |].
  destruct (String.eqb _ _); [| done]. by rewrite (Hh e w').
Qed.

Lemma silent_run_hooks (hook : progress_dict -> M (world J) unit) ds :
  (forall d, silent (hook d)) -> silent (run_hooks hook ds).
Proof.
  intros Hh. induction ds as [|d ds IH]; cbn [run_hooks].
  - apply silent_ret.
  - apply silent_bind; [apply Hh | intros _; exact IH].
Qed.

Lemma silent_extract_info (hook : progress_dict -> M (world J) unit)
    url tmpl :
  (forall d, silent (hook d)) -> silent (extract_info E hook url tmpl).
Proof.
  intros Hh. unfold extract_info.
  apply silent_bind; [by apply silent_emit | intros _].
  apply silent_bind; [apply silent_gets | intros fs].
  apply silent_bind; [by apply silent_run_hooks | intros _].
  apply silent_bind; [apply silent_set_fs | intros _].
  destruct (ex_result _); [apply silent_ret | apply silent_raise].
Qed.

Lemma silent_os_remove (p : string) : silent (J := J) (os_remove E p).
Proof.
  unfold os_remove.
  apply silent_bind; [by apply silent_emit | intros _].
  apply silent_bind; [apply silent_gets | intros fs].
  destruct (os_path_exists p fs); [| apply silent_raise].
  destruct (os_remove_error E p fs); [apply silent_raise | apply silent_set_fs].
Qed.

Lemma silent_run_ffmpeg i o params : silent (J := J) (run_ffmpeg E i o params).
Proof.
  intros w. unfold run_ffmpeg. unfold_run.
  destruct (ffmpeg_run E i o params (w_fs w)) as [fs' [|stderr|e]];
    cbn [fst w_events]; by rewrite finished_signals_app, app_nil_r.
Qed.

End Silent.

Lemma silent_gui_progress p msg : silent (Gui.progress p msg).
Proof. by apply silent_emit. Qed.

Lemma silent_gui_hook d : silent (Gui._youtube_progress_hook d).
Proof.
  unfold Gui._youtube_progress_hook.
  destruct (String.eqb _ _); [| apply silent_ret].
  apply silent_bind; [apply silent_lift_result | intros q].
  apply silent_bind; [apply silent_lift_result | intros p].
  apply silent_bind; [apply silent_lift_result | intros shown].
  apply silent_gui_progress.
Qed.

Lemma silent_gui_download E dir url : silent (Gui._download_youtube E dir url).
Proof.
  unfold Gui._download_youtube.
  apply silent_bind; [apply silent_gui_progress | intros _].
  apply silent_try_except; [| intros e; apply silent_raise].
  apply silent_bind; [apply silent_gui_progress | intros _].
  apply silent_bind;
    [apply silent_extract_info, silent_gui_hook | intros i].
  apply silent_bind;
    [destruct i as [|[t|]]; apply silent_raise || apply silent_ret | intros t].
  apply silent_bind; [apply silent_gets | intros files].
  apply silent_ret.
Qed.

Lemma silent_gui_convert E fmt dir settings input title :
  silent (Gui._convert_audio E fmt dir settings input title).
Proof.
  unfold Gui._convert_audio.
  apply silent_bind; [apply silent_gui_progress | intros _].
  apply silent_bind; [apply silent_gets | intros fs].
  destruct (Gui.unique_output_path _ _ _ _); [| apply silent_raise].
  apply silent_try_except_class; [| intros e; apply silent_raise].
  apply silent_bind; [apply silent_run_ffmpeg | intros _].
  apply silent_bind; [apply silent_gui_progress | intros _].
  apply silent_ret.
Qed.

Lemma gui_convert_audio_ok E fmt dir settings input title
    (w w1 : world (option string)) (p : string) :
  Gui._convert_audio E fmt dir settings input title w = (w1, Ok p) ->
  EvEncode input p (Gui._get_audio_params fmt settings) ∈ w_events w1.
Proof.
  unfold Gui._convert_audio, Gui.progress. unfold_run.
  destruct (Gui.unique_output_path _ _ _ _) as [out|]; [| discriminate].
  unfold_run.
  destruct (ffmpeg_run E _ _ _ _) as [fs' [|stderr|e]]; unfold_run.
  - intros [= <- <-]. cbn [w_events]. set_solver.
  - discriminate.
  - by destruct (String.eqb _ _).
Qed.

Lemma gui_source_ok E source fmt dir settings
    (w w1 : world (option string)) (p : string) :
  (if Gui._is_youtube_url (PyStr source) then
     r <- Gui._download_youtube E dir source ;;
     q <- unpack_pair r ;;
     store (fun _ => Some (fst q)) ;;;
     Gui._convert_audio E fmt dir settings (fst q) (Some (snd q))
   else Gui._convert_audio E fmt dir settings source None) w = (w1, Ok p) ->
  exists input, EvEncode input p (Gui._get_audio_params fmt settings)
                ∈ w_events w1.
Proof.
  destruct (Gui._is_youtube_url _).
  - unfold bind at 1.
    destruct (Gui._download_youtube E dir source w) as [w' [r|e]];
      [| discriminate].
    unfold bind at 1.
    destruct r as [q|]; unfold unpack_pair, ret, raise; [| discriminate].
    unfold bind at 1. unfold store, modify.
    intros H. eexists. exact (gui_convert_audio_ok _ _ _ _ _ _ _ _ _ H).
  - intros H. eexists. exact (gui_convert_audio_ok _ _ _ _ _ _ _ _ _ H).
Qed.

Lemma silent_gui_source E source fmt dir settings :
  silent
    (if Gui._is_youtube_url (PyStr source) then
       r <- Gui._download_youtube E dir source ;;
       q <- unpack_pair r ;;
       store (fun _ => Some (fst q)) ;;;
       Gui._convert_audio E fmt dir settings (fst q) (Some (snd q))
     else Gui._convert_audio E fmt dir settings source None).
Proof.
  destruct (Gui._is_youtube_url _); [| apply silent_gui_convert].
  apply silent_bind; [apply silent_gui_download | intros r].
  apply silent_bind;
    [destruct r; apply silent_ret || apply silent_raise | intros q].
  apply silent_bind; [apply silent_store | intros _].
  apply silent_gui_convert.
Qed.

(** Every run of the desktop thread signals its end exactly once: one
    [finished] signal is emitted, whatever the collaborators do, and it
    says success only with a path the encoder was asked to write. *)
Theorem gui_run_signals_end_once (E : env) (source fmt dir : string)
    (settings : gmap string pyval) (w : world (option string)) :
  exists (ok : bool) (msg : string),
    finished_signals (w_events (fst (Gui.run E source fmt dir settings w)))
    = finished_signals (w_events w) ++ [(ok, msg)]
    /\ (ok = true ->
        exists input : string,
          EvEncode input msg (Gui._get_audio_params fmt settings)
          ∈ w_events (fst (Gui.run E source fmt dir settings w))).
Proof.
  destruct (Gui.run E source fmt dir settings w) as [wf rf] eqn:HR.
  cbn [fst].
  unfold Gui.run in HR. unfold bind at 1 in HR. unfold store at 1 in HR.
  unfold modify at 1 in HR.
  unfold try_finally, try_except at 1 in HR. unfold bind at 1 in HR.
  cbv beta zeta in HR.
  match type of HR with
  | context [(if Gui._is_youtube_url ?u then ?a else ?b) ?w0] =>
    pose proof (silent_gui_source E source fmt dir settings w0) as Hs0;
    pose proof (gui_source_ok E source fmt dir settings w0) as Hok;
    destruct ((if Gui._is_youtube_url u then a else b) w0)
      as [w1 [p|e]] eqn:HP;
    pose proof (eq_trans
                  (eq_sym (f_equal (fun x => finished_signals (w_events (fst x)))
                                   HP)) Hs0) as Hs;
    clear Hs0
  end; cbn [fst w_events] in Hs.
  - destruct (Hok w1 p eq_refl) as [input Hin].
    unfold Gui.progress in HR. exists true, p. revert HR. unfold_run.
    destruct (w_mem w1) as [t|];
      [ destruct (negb _ && _) eqn:Hc;
        [ apply andb_true_iff in Hc as [_ Hex];
          cbn [w_fs w_mem w_events w_hist]; rewrite Hex;
          destruct (os_remove_error E t (w_fs w1)) |] |];
      cbn [w_fs w_mem w_events w_hist];
      intros [= <- <-]; cbn [w_events];
      (split;
       [ rewrite !finished_signals_app, Hs; cbn; by rewrite ?app_nil_r
       | intros _; exists input; set_solver ]).
  - exists false, (exn_str e). revert HR. unfold_run.
    destruct (w_mem w1) as [t|];
      [ destruct (negb _ && _) eqn:Hc;
        [ apply andb_true_iff in Hc as [_ Hex];
          cbn [w_fs w_mem w_events w_hist]; rewrite Hex;
          destruct (os_remove_error E t (w_fs w1)) |] |];
      cbn [w_fs w_mem w_events w_hist];
      intros [= <- <-]; cbn [w_events];
      (split;
       [ rewrite !finished_signals_app, Hs; cbn; by rewrite ?app_nil_r
       | discriminate ]).
Qed.

(* ===================================================================== *)
(** ** Presets of the batch tool *)
(* ===================================================================== *)

(** A preset of the batch tool fixes the format, the sample rate and the
    bitrate: what [-f], [-s] and [-b] gave beside it is overridden, the
    format it sets is one of the converter's table, and the other
    arguments are passed on as given.  Without a preset nothing
    changes. *)
Theorem cli_preset_overrides_flags (a b : CliMain.args) (p : string) :
  p ∈ CliMain.preset_choices ->
  CliMain.a_preset a = Some p ->
  CliMain.a_preset b = Some p ->
  let a' := CliMain.apply_preset a in
  let b' := CliMain.apply_preset b in
  CliMain.a_format a' = CliMain.a_format b'
  /\ CliMain.a_sample_rate a' = CliMain.a_sample_rate b'
  /\ CliMain.a_bitrate a' = CliMain.a_bitrate b'
  /\ is_Some (Cli.formats !! CliMain.a_format a')
  /\ CliMain.a_input a' = CliMain.a_input a
  /\ CliMain.a_output_dir a' = CliMain.a_output_dir a
  /\ CliMain.a_jobs a' = CliMain.a_jobs a.
Proof.
  intros Hp Ha Hb. cbv zeta. unfold CliMain.apply_preset. rewrite Ha, Hb.
  unfold CliMain.preset_choices in Hp.
  repeat (apply elem_of_cons in Hp as [-> | Hp];
          [cbn; repeat (split; [done |]); done |]).
  by apply elem_of_nil in Hp.
Qed.

Lemma cli_preset_overrides_flags_witness :
  CliMain.a_format
    (CliMain.apply_preset
       (CliMain.Args ["a.wav"] "mp3" (Some 8000) (Some "64k") "converted"
                     (Some "hq") 4))
  = CliMain.a_format
      (CliMain.apply_preset
         (CliMain.Args ["b.wav"] "ogg" None None "out" (Some "hq") 1)).
Proof.
  exact (proj1 (cli_preset_overrides_flags
                  (CliMain.Args ["a.wav"] "mp3" (Some 8000) (Some "64k")
                                "converted" (Some "hq") 4)
                  (CliMain.Args ["b.wav"] "ogg" None None "out" (Some "hq") 1)
                  "hq"
                  ltac:(apply elem_of_cons; right; apply elem_of_cons; by left)
                  eq_refl eq_refl)).
Defined.

(* ===================================================================== *)
(** ** Concrete runs for the facts that hold on every run *)
(* ===================================================================== *)

Lemma web_status_machine_witness :
  follows_machine
    (map App.job_status (w_hist (Sample.web_run Sample.env_all_ok "ogg")))
  = true
  /\ output_iff_completed (w_mem (Sample.web_run Sample.env_all_ok "ogg"))
     = true.
Proof.
  exact (web_status_machine Sample.env_all_ok "j1" "clip" [] "youtube"
           Sample.video "ogg" PyNone PyNone (fun _ _ => eq_refl)).
Defined.

Lemma gui_run_cleans_scratch_witness :
  Sample.gui_scratch
  ∉ w_fs (fst (Gui.run Sample.gui_env_encoder_fails Sample.video "ogg" "out" ∅
                 (World None [] [] []))).
Proof.
  apply (gui_run_cleans_scratch Sample.gui_env_encoder_fails Sample.video
           "ogg" "out" ∅ (World None [] [] []) (fun _ _ => eq_refl)
           Sample.gui_scratch).
  - vm_compute. reflexivity.
  - discriminate.
Defined.
